(** * Workflow graph store of the GenAI stack builder

    A shallow embedding of [store/workflowStore.ts] (the zustand store holding
    the node and edge arrays, the converters between the editor shape and the
    id-keyed wire shape, the credential extractor and the save / load /
    execute calls) and of [handleRunWorkflow] in [pages/WorkflowBuilderPage.jsx].

    The source is untyped JavaScript, so a field that the code tests with
    [||], [!], [?.] or [===] is kept as a JavaScript [value]; identifiers of
    nodes and edges and dictionary keys are strings. *)

From Stdlib Require Import List String Ascii ZArith Bool Lia DecimalString.
From Stdlib Require HexadecimalString.
Import ListNotations.
Local Open Scope string_scope.
Set Warnings "-register-all".

(** ** JavaScript values *)

(** [VNum] holds integers only: no number the store computes with is
    fractional (positions are passed through untouched).  [VHost] is a
    built-in function reached through the prototype chain, named by the
    property that leads to it.  Objects list their own enumerable properties
    in enumeration order. *)
Inductive value : Type :=
| VUndef
| VNull
| VBool (b : bool)
| VNum (n : Z)
| VStr (s : string)
| VObj (fields : list (string * value))
| VHost (name : string).

Definition obj : Type := list (string * value).

(** [ToBoolean]. *)
Definition truthy (v : value) : bool :=
  match v with
  | VUndef | VNull => false
  | VBool b => b
  | VNum n => negb (n =? 0)%Z
  | VStr s => negb (s =? "")
  | VObj _ | VHost _ => true
  end.

(** [a || b]. *)
Definition or_else (a b : value) : value := if truthy a then a else b.

(** [v === 'literal'] and [v !== 'literal']. *)
Definition is_str (v : value) (s : string) : bool :=
  match v with VStr s' => s' =? s | _ => false end.

(** [a === b].  Two object operands are equal only when they are the same
    reference; wherever the store compares two values one of them was just
    parsed or just received, so objects never compare equal. *)
Definition strict_eq (a b : value) : bool :=
  match a, b with
  | VUndef, VUndef | VNull, VNull => true
  | VBool x, VBool y => Bool.eqb x y
  | VNum x, VNum y => (x =? y)%Z
  | VStr x, VStr y => x =? y
  | _, _ => false
  end.

Definition string_of_Z (z : Z) : string := NilZero.string_of_int (Z.to_int z).

(** [`${v}`] inside a template literal. *)
Definition to_js_string (v : value) : string :=
  match v with
  | VUndef => "undefined"
  | VNull => "null"
  | VBool true => "true"
  | VBool false => "false"
  | VNum n => string_of_Z n
  | VStr s => s
  | VObj _ => "[object Object]"
  | VHost name => "function " ++ name ++ "() { [native code] }"
  end.

(** *** Objects as property lists *)

Fixpoint get_prop (k : string) (o : obj) : value :=
  match o with
  | [] => VUndef
  | (k', v) :: r => if k =? k' then v else get_prop k r
  end.

Fixpoint has_prop (k : string) (o : obj) : bool :=
  match o with
  | [] => false
  | (k', _) :: r => (k =? k') || has_prop k r
  end.

(** [o[k] = v]: an existing property keeps its place, a new one goes last. *)
Fixpoint set_prop (k : string) (v : value) (o : obj) : obj :=
  match o with
  | [] => [(k, v)]
  | (k', v') :: r => if k =? k' then (k, v) :: r else (k', v') :: set_prop k v r
  end.

(** [{ ...o, ...src }]. *)
Definition assign (o src : obj) : obj :=
  fold_left (fun acc kv => set_prop (fst kv) (snd kv) acc) src o.

Fixpoint chars_from (i : nat) (s : string) : obj :=
  match s with
  | EmptyString => []
  | String c r =>
      (NilZero.string_of_uint (Nat.to_uint i), VStr (String c EmptyString))
        :: chars_from (S i) r
  end.

(** What [{ ...v }] copies: the own enumerable properties of [v].  A string
    spreads into its characters keyed by index; the other primitives,
    [undefined], [null] and functions spread into nothing. *)
Definition own_props (v : value) : obj :=
  match v with
  | VObj fs => fs
  | VStr s => chars_from 0 s
  | _ => []
  end.

(** [v?.k]: [undefined] when [v] is [undefined] or [null]; on the other
    values the property is looked up among the own properties (none of the
    keys the store reads is a built-in member of a primitive). *)
Definition opt_prop (v : value) (k : string) : value :=
  match v with
  | VObj fs => get_prop k fs
  | _ => VUndef
  end.

(** Members that every object literal inherits from [Object.prototype]:
    [table[k]] finds them when [k] is not an own key of the table.  All are
    functions but [__proto__], which is [Object.prototype] itself, an object
    without enumerable properties. *)
Definition object_prototype_functions : list string :=
  [ "constructor"; "toString"; "toLocaleString"; "valueOf"; "hasOwnProperty";
    "isPrototypeOf"; "propertyIsEnumerable"; "__defineGetter__";
    "__defineSetter__"; "__lookupGetter__"; "__lookupSetter__" ].

Definition inherited_member (k : string) : value :=
  if existsb (String.eqb k) object_prototype_functions then VHost k
  else if k =? "__proto__" then VObj []
  else VUndef.

(** [table[k]] on an object literal [table] whose values are strings. *)
Definition table_lookup (table : list (string * string)) (k : string) : value :=
  match find (fun kv => fst kv =? k) table with
  | Some kv => VStr (snd kv)
  | None => inherited_member k
  end.

(** [table[type] || type].  A key that is not a string is converted to one
    first; the strings [undefined], [null], [true], [false], a decimal number
    and the renderings of an object or a function are keys of neither table
    nor of [Object.prototype], so such a [type] is returned as it is. *)
Definition lookup_or_self (table : list (string * string)) (type : value) : value :=
  match type with
  | VStr s => or_else (table_lookup table s) type
  | _ => type
  end.

(** ** Nodes, edges and their wire forms *)

(** A node of the editor.  [n_other] holds the properties the renderer keeps
    on a node beside the four the store reads ([selected], [width], ...). *)
Record node : Type := mkNode {
  n_id : string;
  n_type : value;
  n_position : value;
  n_data : obj;
  n_other : obj
}.

Record edge : Type := mkEdge {
  e_id : string;
  e_source : value;
  e_target : value;
  e_sourceHandle : value;
  e_targetHandle : value;
  e_type : value;
  e_animated : value;
  e_style : value;
  e_data : value
}.

(** The argument of [onConnect]. *)
Record connection : Type := mkConnection {
  c_source : value;
  c_target : value;
  c_sourceHandle : value;
  c_targetHandle : value
}.

(** Entries of the two dictionaries sent to and received from the service. *)
Record wire_node : Type := mkWireNode {
  wn_id : string;
  wn_type : value;
  wn_position : value;
  wn_data : value
}.

Record wire_edge : Type := mkWireEdge {
  we_id : string;
  we_source : value;
  we_target : value;
  we_sourceHandle : value;
  we_targetHandle : value;
  we_type : value;
  we_data : value
}.

(** A dictionary object: its own properties in enumeration order, which is
    the array indices in ascending order followed by the other keys in the
    order of their creation. *)
Definition dict (A : Type) : Type := list (string * A).

(** The key is an array index: the canonical decimal form of an integer
    between 0 and 2^32 - 2. *)
Definition array_index (k : string) : option N :=
  match NilEmpty.uint_of_string k with
  | Some u =>
      let n := N.of_uint u in
      if (NilZero.string_of_uint (N.to_uint n) =? k) && (n <? 4294967295)%N
      then Some n else None
  | None => None
  end.


Definition dict_has {A : Type} (k : string) (d : dict A) : bool :=
  existsb (String.eqb k) (map fst d).

(** An existing property keeps its place. *)
Fixpoint dict_replace {A : Type} (k : string) (a : A) (d : dict A) : dict A :=
  match d with
  | [] => []
  | (k', a') :: r =>
      if k =? k' then (k, a) :: r else (k', a') :: dict_replace k a r
  end.

(** A new array index goes after the smaller indices and before the larger
    ones and the other keys. *)
Fixpoint dict_insert_index {A : Type} (n : N) (k : string) (a : A)
  (d : dict A) : dict A :=
  match d with
  | [] => [(k, a)]
  | (k', a') :: r =>
      match array_index k' with
      | Some m =>
          if (m <? n)%N then (k', a') :: dict_insert_index n k a r
          else (k, a) :: d
      | None => (k, a) :: d
      end
  end.

(** [d[k] = a], where [a] is an object.  Assigning to [__proto__] replaces
    the prototype of [d] and creates no property; an existing property is
    overwritten where it is; a new array index is placed by its value and any
    other new key goes last. *)
Definition dict_set {A : Type} (k : string) (a : A) (d : dict A) : dict A :=
  if k =? "__proto__" then d
  else if dict_has k d then dict_replace k a d
  else match array_index k with
       | Some n => dict_insert_index n k a d
       | None => (d ++ [(k, a)])%list
       end.

(** [Object.values(d)]. *)
Definition dict_values {A : Type} (d : dict A) : list A := map snd d.

(** ** Helper functions *)

Definition getNodeName (type : value) : value :=
  if is_str type "userQueryNode" then VStr "UserQuery"
  else if is_str type "knowledgeBaseNode" then VStr "KnowledgeBase"
  else if is_str type "llmNode" then VStr "LLMEngine"
  else if is_str type "outputNode" then VStr "Output"
  else if is_str type "webSearchNode" then VStr "WebSearch"
  else type.

(** [nodes.find((node) => node.id === v)]. *)
Definition find_node (v : value) (nodes : list node) : option node :=
  find (fun node => is_str v (n_id node)) nodes.

(** [node.data.type]. *)
Definition data_type (n : node) : value := get_prop "type" (n_data n).

Definition determineEdgeName (c : connection) (nodes : list node) : string :=
  match find_node (c_source c) nodes, find_node (c_target c) nodes with
  | Some sourceNode, Some targetNode =>
      if is_str (data_type sourceNode) "userQueryNode" then "Query"
      else if is_str (data_type targetNode) "knowledgeBaseNode"
              && is_str (c_targetHandle c) "kb-input" then "Query Intake"
      else if is_str (data_type sourceNode) "knowledgeBaseNode"
              && is_str (c_sourceHandle c) "kb-output" then "Context"
      else if is_str (data_type targetNode) "llmNode"
              && is_str (c_targetHandle c) "context-input" then "Context"
      else if is_str (data_type targetNode) "llmNode"
              && is_str (c_targetHandle c) "query-input" then "Query"
      else if is_str (data_type sourceNode) "llmNode"
              && is_str (c_sourceHandle c) "llm-output" then "Answer"
      else if is_str (data_type targetNode) "outputNode" then "Final Output"
      else "Connection"
  | _, _ => "Unknown"
  end.

(** ** Type conversion *)

Definition frontend_to_backend : list (string * string) :=
  [ ("userQueryNode", "userQuery"); ("outputNode", "output");
    ("llmNode", "llmEngine"); ("knowledgeBaseNode", "knowledgeBase");
    ("webSearchNode", "webSearch") ].

Definition backend_to_frontend : list (string * string) :=
  [ ("userQuery", "userQueryNode"); ("output", "outputNode");
    ("llmEngine", "llmNode"); ("knowledgeBase", "knowledgeBaseNode");
    ("webSearch", "webSearchNode") ].

Definition convertNodeType (type : value) : value :=
  lookup_or_self frontend_to_backend type.

Definition convertBackendNodeType (type : value) : value :=
  lookup_or_self backend_to_frontend type.

(** ** Conversion between the arrays and the dictionaries *)

(** The object stored under [node.id] by [nodesToDict]. *)
Definition wire_of_node (n : node) : wire_node :=
  let config := get_prop "config" (n_data n) in
  {| wn_id := n_id n;
     wn_type := convertNodeType (or_else (n_type n) (data_type n));
     wn_position := n_position n;
     wn_data :=
       VObj (set_prop "config"
               (if truthy config
                then VObj (set_prop "uploadedFile" VUndef (own_props config))
                else VObj [])
               (set_prop "type"
                  (convertNodeType (or_else (data_type n) (n_type n)))
                  (n_data n))) |}.

Definition nodesToDict (nodes : list node) : dict wire_node :=
  fold_left (fun nodesDict n => dict_set (n_id n) (wire_of_node n) nodesDict)
            nodes [].

Definition wire_of_edge (e : edge) : wire_edge :=
  {| we_id := e_id e;
     we_source := e_source e;
     we_target := e_target e;
     we_sourceHandle := or_else (e_sourceHandle e) VNull;
     we_targetHandle := or_else (e_targetHandle e) VNull;
     we_type := or_else (e_type e) (VStr "smoothstep");
     we_data := or_else (e_data e) (VObj []) |}.

Definition edgesToDict (edges : list edge) : dict wire_edge :=
  fold_left (fun edgesDict e => dict_set (e_id e) (wire_of_edge e) edgesDict)
            edges [].

Definition origin : value := VObj [("x", VNum 0); ("y", VNum 0)].

Definition node_of_wire (w : wire_node) : node :=
  {| n_id := wn_id w;
     n_type := convertBackendNodeType (wn_type w);
     n_position := or_else (wn_position w) origin;
     n_data :=
       set_prop "type"
         (convertBackendNodeType
            (or_else (wn_type w) (opt_prop (wn_data w) "type")))
         (own_props (wn_data w));
     n_other := [] |}.

(** [None] is a [nodesDict] that is falsy or not an object. *)
Definition dictToNodes (nodesDict : option (dict wire_node)) : list node :=
  match nodesDict with
  | None => []
  | Some d => map node_of_wire (dict_values d)
  end.

Definition edge_style : value :=
  VObj [("stroke", VStr "#FF6B6B"); ("strokeWidth", VNum 2)].

Definition edge_of_wire (w : wire_edge) : edge :=
  {| e_id := we_id w;
     e_source := we_source w;
     e_target := we_target w;
     e_sourceHandle := we_sourceHandle w;
     e_targetHandle := we_targetHandle w;
     e_type := or_else (we_type w) (VStr "smoothstep");
     e_animated := VBool true;
     e_style := edge_style;
     e_data := or_else (we_data w) (VObj []) |}.

Definition dictToEdges (edgesDict : option (dict wire_edge)) : list edge :=
  match edgesDict with
  | None => []
  | Some d => map edge_of_wire (dict_values d)
  end.

(** ** Credentials *)

(** [node.data.type === kind || node.type === kind]. *)
Definition of_kind (n : node) (kind : string) : bool :=
  is_str (data_type n) kind || is_str (n_type n) kind.

(** The body of the [forEach] in [extractApiKeys]. *)
Definition collect_keys (apiKeys : obj) (n : node) : obj :=
  let config := get_prop "config" (n_data n) in
  if truthy config then
    let apiKey := opt_prop config "apiKey" in
    let serpApiKey := opt_prop config "serpApiKey" in
    let k1 := if of_kind n "llmNode" && truthy apiKey
              then set_prop "llm" apiKey apiKeys else apiKeys in
    let k2 := if of_kind n "knowledgeBaseNode" && truthy apiKey
              then set_prop "knowledge" apiKey k1 else k1 in
    if (of_kind n "llmNode" && truthy serpApiKey)
       || (of_kind n "webSearchNode" && truthy serpApiKey)
    then set_prop "websearch" serpApiKey k2 else k2
  else apiKeys.

Definition no_keys : obj :=
  [("llm", VStr ""); ("knowledge", VStr ""); ("websearch", VStr "")].

(** [if (apiKeys.k) filteredApiKeys.k = apiKeys.k]. *)
Definition keep_key (apiKeys : obj) (k : string) (filtered : obj) : obj :=
  if truthy (get_prop k apiKeys) then set_prop k (get_prop k apiKeys) filtered
  else filtered.

Definition extractApiKeys (nodes : list node) : obj :=
  let apiKeys := fold_left collect_keys nodes no_keys in
  keep_key apiKeys "websearch"
    (keep_key apiKeys "knowledge" (keep_key apiKeys "llm" [])).

(** ** The store *)

Record state : Type := mkState {
  selectedWorkflowId : value;
  nodes : list node;
  edges : list edge;
  workflowName : value;
  workflowDescription : value;
  workflowConfig : value;
  draggedType : value
}.

(** [set({ nodes })], [set({ edges })], [set({ selectedWorkflowId })]: the
    other fields of the state are kept. *)
Definition with_nodes (st : state) (ns : list node) : state :=
  {| selectedWorkflowId := selectedWorkflowId st; nodes := ns;
     edges := edges st; workflowName := workflowName st;
     workflowDescription := workflowDescription st;
     workflowConfig := workflowConfig st; draggedType := draggedType st |}.

Definition with_edges (st : state) (es : list edge) : state :=
  {| selectedWorkflowId := selectedWorkflowId st; nodes := nodes st;
     edges := es; workflowName := workflowName st;
     workflowDescription := workflowDescription st;
     workflowConfig := workflowConfig st; draggedType := draggedType st |}.

Definition setSelectedWorkflowId (id : value) (st : state) : state :=
  {| selectedWorkflowId := id; nodes := nodes st;
     edges := edges st; workflowName := workflowName st;
     workflowDescription := workflowDescription st;
     workflowConfig := workflowConfig st; draggedType := draggedType st |}.

Definition resetWorkflowBuilder (st : state) : state :=
  {| selectedWorkflowId := VNull; nodes := []; edges := [];
     workflowName := VStr ""; workflowDescription := VStr "";
     workflowConfig := VObj []; draggedType := VNull |}.

Definition removeNode (nodeId : string) (st : state) : state :=
  with_edges
    (with_nodes st (filter (fun node => negb (n_id node =? nodeId)) (nodes st)))
    (filter (fun edge => negb (is_str (e_source edge) nodeId)
                         && negb (is_str (e_target edge) nodeId))
            (edges st)).

Definition removeEdge (edgeId : string) (st : state) : state :=
  with_edges st (filter (fun edge => negb (e_id edge =? edgeId)) (edges st)).

(** [{ ...node, data: { ...node.data, config: { ...node.data.config,
    ...newConfig } } }]. *)
Definition merge_config (newConfig : obj) (n : node) : node :=
  {| n_id := n_id n;
     n_type := n_type n;
     n_position := n_position n;
     n_data :=
       set_prop "config"
         (VObj (assign (own_props (get_prop "config" (n_data n))) newConfig))
         (n_data n);
     n_other := n_other n |}.

Definition updateNodeConfig (nodeId : string) (newConfig : obj) (st : state)
  : state :=
  with_nodes st
    (map (fun node => if n_id node =? nodeId then merge_config newConfig node
                      else node)
         (nodes st)).

(** *** Connecting *)

(** [addEdge] belongs to the reactflow package (version 11), not to this
    repository.  It returns the edge array as it is when the source or the
    target of the new edge is falsy, or when an edge with the same endpoints
    and handles is already there; otherwise it returns the array with the new
    edge appended. *)
Definition same_handle (a b : value) : bool :=
  strict_eq a b || (negb (truthy a) && negb (truthy b)).

Definition connectionExists (e : edge) (es : list edge) : bool :=
  existsb (fun el => strict_eq (e_source el) (e_source e)
                     && strict_eq (e_target el) (e_target e)
                     && same_handle (e_sourceHandle el) (e_sourceHandle e)
                     && same_handle (e_targetHandle el) (e_targetHandle e))
          es.

Definition addEdge (edgeParams : edge) (es : list edge) : list edge :=
  if negb (truthy (e_source edgeParams)) || negb (truthy (e_target edgeParams))
  then es
  else if connectionExists edgeParams es then es
  else es ++ [edgeParams].

(** The edge [onConnect] builds; [now] is the value of [Date.now()]. *)
Definition new_edge (now : Z) (c : connection) (edgeName : string) : edge :=
  {| e_id := "e" ++ to_js_string (c_source c) ++ "-"
                 ++ to_js_string (c_target c) ++ "-" ++ string_of_Z now;
     e_source := c_source c;
     e_target := c_target c;
     e_sourceHandle := c_sourceHandle c;
     e_targetHandle := c_targetHandle c;
     e_type := VStr "smoothstep";
     e_animated := VBool true;
     e_style := edge_style;
     e_data := VObj [("name", VStr edgeName)] |}.

Definition onConnect (now : Z) (c : connection) (st : state) : state :=
  let edgeName := determineEdgeName c (nodes st) in
  with_edges st (addEdge (new_edge now c edgeName) (edges st)).

(** ** Calls to the service *)

Record save_payload : Type := mkPayload {
  stack_id : value;
  payload_nodes : dict wire_node;
  payload_edges : dict wire_edge;
  api_keys : value
}.

Inductive request : Type :=
| PostWorkflow (payload : save_payload)
| GetWorkflow (workflowId : string)
| PostExecute (stack : value) (query : value).

(** The outcome of [response.json()]: the parsed body, or the message of the
    error it rejects with. *)
Inductive parsed (A : Type) : Type :=
| NotJson (message : string)
| Json (a : A).
Arguments NotJson {A} message.
Arguments Json {A} a.

Record response (A : Type) : Type := mkResponse {
  status : Z;
  text : string;
  json : parsed A
}.
Arguments mkResponse {A} status text json.
Arguments status {A} r.
Arguments text {A} r.
Arguments json {A} r.

(** The outcome of [fetch]: rejected with an error, or resolved. *)
Inductive fetched (A : Type) : Type :=
| Rejected (message : string)
| Resolved (r : response A).
Arguments Rejected {A} message.
Arguments Resolved {A} r.

(** The body of a successful load, as [loadWorkflow] reads it.  A body that
    makes the [try] block of [loadWorkflow] throw (for instance [null]) acts
    as [NotJson]. *)
Record workflow_data : Type := mkData {
  data_stack_id : value;
  data_nodes : option (dict wire_node);
  data_edges : option (dict wire_edge);
  data_name : value;
  data_description : value
}.

(** The service, as seen from the store: what each request is answered. *)
Record network : Type := mkNetwork {
  on_save : save_payload -> fetched value;
  on_load : string -> fetched workflow_data;
  on_execute : value -> value -> fetched value
}.

(** [response.ok]. *)
Definition ok {A : Type} (r : response A) : bool :=
  (200 <=? status r)%Z && (status r <=? 299)%Z.

(** The store together with the requests issued so far, oldest first. *)
Record world : Type := mkWorld {
  store : state;
  sent : list request
}.

(** *** Asynchronous code as a state and exception monad *)

Inductive completion (A : Type) : Type :=
| Returned (a : A)
| Thrown (message : string).
Arguments Returned {A} a.
Arguments Thrown {A} message.

Definition M (A : Type) : Type := world -> completion A * world.

Definition ret {A : Type} (a : A) : M A := fun w => (Returned a, w).

Definition throw {A : Type} (message : string) : M A :=
  fun w => (Thrown message, w).

Definition bind {A B : Type} (m : M A) (k : A -> M B) : M B :=
  fun w => match m w with
           | (Returned a, w') => k a w'
           | (Thrown e, w') => (Thrown e, w')
           end.

(** [try { m } catch (error) { handler(error.message) }]. *)
Definition try_catch {A : Type} (m : M A) (handler : string -> M A) : M A :=
  fun w => match m w with
           | (Returned a, w') => (Returned a, w')
           | (Thrown e, w') => handler e w'
           end.

Declare Scope js_scope.
Delimit Scope js_scope with js.
Notation "x <- m ;; k" := (bind m (fun x => k))
  (at level 61, m at next level, right associativity) : js_scope.
Notation "m ;;; k" := (bind m (fun _ => k))
  (at level 61, right associativity) : js_scope.
Local Open Scope js_scope.

(** [get()]. *)
Definition get : M state := fun w => (Returned (store w), w).

(** [set(f)]. *)
Definition set (f : state -> state) : M unit :=
  fun w => (Returned tt, {| store := f (store w); sent := sent w |}).

Definition issue (r : request) : M unit :=
  fun w => (Returned tt, {| store := store w; sent := sent w ++ [r] |}).

(** [await fetch(...)]: the request is recorded; a rejected fetch throws. *)
Definition fetch {A : Type} (r : request) (answer : fetched A)
  : M (response A) :=
  issue r ;;;
  match answer with
  | Rejected message => throw message
  | Resolved res => ret res
  end.

(** [await response.json()]. *)
Definition body {A : Type} (r : response A) : M A :=
  match json r with
  | NotJson message => throw message
  | Json a => ret a
  end.

(** The message of the [TypeError] raised by reading a property of
    [undefined] or [null], or by calling a method a value does not have; its
    text is chosen by the engine. *)
Definition type_error : string := "TypeError".

(** [v.k]. *)
Definition member (v : value) (k : string) : M value :=
  match v with
  | VUndef | VNull => throw type_error
  | _ => ret (opt_prop v k)
  end.

(** ** API operations *)

Section Api.

Variable net : network.

(** [Object.keys(apiKeys).length > 0 ? apiKeys : null]. *)
Definition keys_or_null (apiKeys : obj) : value :=
  match apiKeys with
  | [] => VNull
  | _ :: _ => VObj apiKeys
  end.

Definition build_payload (workflowId : value) (st : state) : save_payload :=
  {| stack_id := workflowId;
     payload_nodes := nodesToDict (nodes st);
     payload_edges := edgesToDict (edges st);
     api_keys := keys_or_null (extractApiKeys (nodes st)) |}.

(** The inner [try] of [saveWorkflow] only logs and rethrows. *)
Definition saveWorkflow : M value :=
  st <- get ;;
  let workflowId := selectedWorkflowId st in
  if negb (truthy workflowId) then throw "No workflow ID available"
  else
    let payload := build_payload workflowId st in
    res <- fetch (PostWorkflow payload) (on_save net payload) ;;
    if negb (ok res)
    then throw ("Failed to save workflow: " ++ string_of_Z (status res)
                  ++ " " ++ text res)
    else
      result <- body res ;;
      new_id <- member result "stack_id" ;;
      (if truthy new_id && negb (strict_eq new_id workflowId)
       then set (setSelectedWorkflowId new_id) else ret tt) ;;;
      ret result.

(** [set({ selectedWorkflowId, nodes: [], edges: [], workflowName: '',
    workflowDescription: '' })]. *)
Definition empty_workflow (workflowId : value) (st : state) : state :=
  {| selectedWorkflowId := workflowId; nodes := []; edges := [];
     workflowName := VStr ""; workflowDescription := VStr "";
     workflowConfig := workflowConfig st; draggedType := draggedType st |}.

Definition loaded_workflow (workflowId : string) (d : workflow_data)
  (st : state) : state :=
  {| selectedWorkflowId := or_else (data_stack_id d) (VStr workflowId);
     nodes := dictToNodes (data_nodes d);
     edges := dictToEdges (data_edges d);
     workflowName := or_else (data_name d) (VStr "");
     workflowDescription := or_else (data_description d) (VStr "");
     workflowConfig := workflowConfig st; draggedType := draggedType st |}.

(** [workflowId.startsWith('temp_')], reached with a truthy [workflowId]:
    only a string has the method. *)
Definition startsWith_temp (workflowId : value) : M bool :=
  match workflowId with
  | VStr s => ret (prefix "temp_" s)
  | _ => throw type_error
  end.

Definition loadWorkflow (workflowId : value) : M bool :=
  try_catch
    (if negb (truthy workflowId) || is_str workflowId "new"
     then set (setSelectedWorkflowId workflowId) ;;; ret true
     else
       temp <- startsWith_temp workflowId ;;
       if temp : bool
       then set (setSelectedWorkflowId workflowId) ;;; ret true
       else
         let id := to_js_string workflowId in
         res <- fetch (GetWorkflow id) (on_load net id) ;;
         if negb (ok res)
         then
           if (status res =? 404)%Z
           then set (empty_workflow workflowId) ;;; ret true
           else throw ("Failed to load workflow: " ++ string_of_Z (status res))
         else
           d <- body res ;;
           set (loaded_workflow id d) ;;; ret true)
    (fun _ => set (empty_workflow workflowId) ;;; ret false).

(** [state.nodes.find(node => node.type === 'outputNode')]. *)
Definition find_output (ns : list node) : option node :=
  find (fun node => is_str (n_type node) "outputNode") ns.

(** The object returned by [saveAndExecuteWorkflow] on success and the one
    returned from its [catch]. *)
Definition executed (saveResult executeResult : value) : obj :=
  [ ("success", VBool true); ("saveResult", saveResult);
    ("executeResult", executeResult);
    ("message", VStr "Workflow saved and executed successfully") ].

Definition not_executed (message : string) : obj :=
  [ ("success", VBool false); ("error", VStr message);
    ("message", VStr ("Failed to save and execute workflow: " ++ message)) ].

(** [state] is the snapshot taken by [get()] on entry: the workflow id and
    the node array used after the save are the ones of that snapshot. *)
Definition saveAndExecuteWorkflow (userQuery : value) : M obj :=
  st <- get ;;
  try_catch
    (saveResult <- saveWorkflow ;;
     if negb (truthy saveResult) then throw "Failed to save workflow"
     else
       let workflowId := selectedWorkflowId st in
       if negb (truthy workflowId)
       then throw "No workflow ID available for execution"
       else
         res <- fetch (PostExecute workflowId userQuery)
                      (on_execute net workflowId userQuery) ;;
         if negb (ok res)
         then throw ("Failed to execute workflow: "
                       ++ string_of_Z (status res) ++ " " ++ text res)
         else
           executeResult <- body res ;;
           result <- member executeResult "result" ;;
           (if truthy result
            then match find_output (nodes st) with
                 | Some outputNode =>
                     set (updateNodeConfig (n_id outputNode)
                                           [("output", result)])
                 | None => ret tt
                 end
            else ret tt) ;;;
           ret (executed saveResult executeResult))
    (fun message => ret (not_executed message)).

(** ** The run button of the builder page *)

(** The React state of the page that [handleRunWorkflow] writes. *)
Record page : Type := mkPage {
  isExecuting : bool;
  executionResult : value;
  showResult : bool
}.

Definition placeholder_query : string := "Write your query here".

(** [nodes.find(node => node.type === kind)]. *)
Definition find_type (kind : string) (ns : list node) : option node :=
  find (fun node => is_str (n_type node) kind) ns.

(** [node.data?.config?.k]. *)
Definition config_of (n : node) (k : string) : value :=
  opt_prop (get_prop "config" (n_data n)) k.

(** The checks that open the [try] block of [handleRunWorkflow]; the value
    returned is [userQuery]. *)
Definition validate (ns : list node) : M value :=
  match find_type "userQueryNode" ns with
  | None => throw "Please add a User Query node to your workflow"
  | Some userQueryNode =>
      let userQuery := or_else (config_of userQueryNode "query") (VStr "") in
      if negb (truthy userQuery) || is_str userQuery placeholder_query
      then throw "Please enter a query in the User Query node"
      else
        match find_type "outputNode" ns with
        | None => throw "Please add an Output node to your workflow"
        | Some _ =>
            match find_type "llmNode" ns with
            | None => throw "Please add an LLM node to your workflow"
            | Some llmNode =>
                if negb (truthy (config_of llmNode "apiKey"))
                then throw "Please configure an API key in your LLM node"
                else ret userQuery
            end
        end
  end.

(** The object given to [setExecutionResult] after the call and the one
    given to it in the [catch]. *)
Definition run_result (result : obj) : value :=
  VObj [ ("success", get_prop "success" result);
         ("message", get_prop "message" result);
         ("type", VStr "execute");
         ("saveResult", get_prop "saveResult" result);
         ("executeResult", get_prop "executeResult" result);
         ("error", get_prop "error" result) ].

Definition run_failure (message : string) : value :=
  VObj [ ("success", VBool false); ("message", VStr message);
         ("type", VStr "execute"); ("error", VStr message) ].

(** [handleRunWorkflow], on the node array of the current render.  The page
    state is written three times before the [try] and once in [finally];
    the timer that hides the banner later is left out. *)
Definition handleRunWorkflow (w : world) : page * world :=
  match (userQuery <- validate (nodes (store w)) ;;
         saveAndExecuteWorkflow userQuery) w with
  | (Returned result, w') =>
      ({| isExecuting := false; executionResult := run_result result;
          showResult := true |}, w')
  | (Thrown message, w') =>
      ({| isExecuting := false; executionResult := run_failure message;
          showResult := true |}, w')
  end.

End Api.

(** * Vocabulary of the statements *)

(** The edge [e] is connected to the node [nodeId]. *)
Definition touches (nodeId : string) (e : edge) : bool :=
  is_str (e_source e) nodeId || is_str (e_target e) nodeId.

(** The configuration object of a node, as [{ ...node.data.config }]. *)
Definition config (n : node) : obj := own_props (get_prop "config" (n_data n)).

(** The three fields of the secrets bundle. *)
Definition credential_fields : list string := ["llm"; "knowledge"; "websearch"].

(** The value a node offers for a field of the bundle: the [apiKey] of a
    language-model node for [llm], the [apiKey] of a knowledge-base node for
    [knowledge], the [serpApiKey] of a language-model or web-search node for
    [websearch]; [undefined] for a node of another kind. *)
Definition credential (k : string) (n : node) : value :=
  if k =? "llm" then
    if of_kind n "llmNode" then config_of n "apiKey" else VUndef
  else if k =? "knowledge" then
    if of_kind n "knowledgeBaseNode" then config_of n "apiKey" else VUndef
  else if k =? "websearch" then
    if of_kind n "llmNode" || of_kind n "webSearchNode"
    then config_of n "serpApiKey" else VUndef
  else VUndef.

(** The value is a string, or is missing. *)
Definition textual (v : value) : bool :=
  match v with VStr _ | VUndef | VNull => true | _ => false end.

(** The node offers a non-empty value for the field. *)
Definition offers (k : string) (n : node) : bool := truthy (credential k n).

(** ** Sample graphs *)

(** A node as the builder page creates it on a drop: [type] and [data.type]
    agree and [data.config] is an object. *)
Definition sample_node (id type : string) (cfg : obj) : node :=
  {| n_id := id; n_type := VStr type; n_position := origin;
     n_data := [("type", VStr type); ("config", VObj cfg)];
     n_other := [] |}.

Definition sample_edge (id source target : string) : edge :=
  {| e_id := id; e_source := VStr source; e_target := VStr target;
     e_sourceHandle := VNull; e_targetHandle := VNull;
     e_type := VStr "smoothstep"; e_animated := VBool true;
     e_style := edge_style; e_data := VObj [("name", VStr "Query")] |}.

(** The store of the workflow [wf1] holding the given graph. *)
Definition sample_state (ns : list node) (es : list edge) : state :=
  {| selectedWorkflowId := VStr "wf1"; nodes := ns; edges := es;
     workflowName := VStr ""; workflowDescription := VStr "";
     workflowConfig := VObj []; draggedType := VNull |}.

Definition sample_world (ns : list node) (es : list edge) : world :=
  {| store := sample_state ns es; sent := [] |}.

Definition query_node (q : string) : node :=
  sample_node "q1" "userQueryNode" [("query", VStr q)].

Definition llm_node (id key : string) : node :=
  sample_node id "llmNode" [("model", VStr "GPT-4o-Mini"); ("apiKey", VStr key)].

Definition output_node : node :=
  sample_node "o1" "outputNode"
    [("output", VStr "Workflow output will appear here.")].

(** A connection between two node ids that uses no handle. *)
Definition plain_connection (source target : string) : connection :=
  {| c_source := VStr source; c_target := VStr target;
     c_sourceHandle := VNull; c_targetHandle := VNull |}.

(** A service that stores every workflow and answers every query with 42. *)
Definition sample_network : network :=
  {| on_save := fun payload =>
       Resolved (mkResponse 200 "" (Json (VObj [("stack_id", stack_id payload)])));
     on_load := fun _ => Rejected "Failed to fetch";
     on_execute := fun _ _ =>
       Resolved (mkResponse 200 "" (Json (VObj [("result", VStr "42")]))) |}.

(** ** Readiness *)

(** The graph holds exactly one node whose [type] is [kind], the node [n]. *)
Definition only_node_of_type (kind : string) (n : node) (ns : list node)
  : Prop :=
  filter (fun m => is_str (n_type m) kind) ns = [n].

Definition query_reason : string :=
  "Please enter a query in the User Query node".

Definition key_reason : string :=
  "Please configure an API key in your LLM node".

(** The string [v] contains [needle]. *)
Definition contains (needle : string) (v : value) : bool :=
  match v with
  | VStr s => match index 0 needle s with Some _ => true | None => false end
  | _ => false
  end.

(** The result shown to the user states the reason: its [message] or its
    [error] contains the text. *)
Definition mentions (reason : string) (result : value) : bool :=
  contains reason (opt_prop result "message")
  || contains reason (opt_prop result "error").

(** ** Failing requests *)

(** The answer to a request is a failure: no response, or a status outside
    200..299. *)
Definition failed {A : Type} (answer : fetched A) : Prop :=
  match answer with
  | Rejected _ => True
  | Resolved res => ok res = false
  end.




(** ** Successful runs *)


(** [updateNodeConfig(outputNode.id, { output: result })] on a node array. *)
Definition write_output (out : node) (result : value) (ns : list node)
  : list node :=
  map (fun n => if n_id n =? n_id out
                then merge_config [("output", result)] n else n) ns.


(** ** Loading *)

(** [!workflowId || workflowId === 'new' || workflowId.startsWith('temp_')]
    holds: the identifier is one that [loadWorkflow] does not fetch. *)
Definition not_fetched (workflowId : value) : bool :=
  negb (truthy workflowId) || is_str workflowId "new"
  || match workflowId with VStr s => prefix "temp_" s | _ => false end.

(** The load request brings no workflow: no response, a status outside
    200..299 (404 among them), or a body that cannot be read. *)
Definition unavailable (answer : fetched workflow_data) : Prop :=
  match answer with
  | Rejected _ => True
  | Resolved res => ok res = false \/ exists m, json res = NotJson m
  end.

(** The answer is a response with status 404. *)
Definition not_found (answer : fetched workflow_data) : bool :=
  match answer with
  | Rejected _ => false
  | Resolved res => negb (ok res) && (status res =? 404)%Z
  end.

(** A service that knows no workflow. *)
Definition missing_network : network :=
  {| on_save := fun _ => Rejected "Failed to fetch";
     on_load := fun _ => Resolved (mkResponse 404 "Not Found" (NotJson "not JSON"));
     on_execute := fun _ _ => Rejected "Failed to fetch" |}.

(** ** The wire *)

(** What [JSON.stringify] keeps of a value that sits in a payload: inside
    objects, at every depth, a property holding [undefined] or a function is
    left out. *)
Fixpoint on_wire (v : value) : value :=
  match v with
  | VObj fs =>
      VObj ((fix strip (l : list (string * value)) : list (string * value) :=
               match l with
               | [] => []
               | (k, x) :: r =>
                   match x with
                   | VUndef | VHost _ => strip r
                   | _ => (k, on_wire x) :: strip r
                   end
               end) fs)
  | _ => v
  end.


(** The value can come out of [JSON.parse]: it holds neither [undefined]
    nor a function. *)
Fixpoint is_json (v : value) : bool :=
  match v with
  | VUndef | VHost _ => false
  | VObj fs =>
      (fix all (l : list (string * value)) : bool :=
         match l with
         | [] => true
         | (_, x) :: r => is_json x && all r
         end) fs
  | _ => true
  end.






(** A type name of the service side: a non-empty string that is neither one
    of the five editor names nor a member inherited from
    [Object.prototype]. *)
Definition service_type (v : value) : bool :=
  match v with
  | VStr t =>
      negb (t =? "")
      && match find (fun kv => fst kv =? t) frontend_to_backend with
         | Some _ => false
         | None => true
         end
      && negb (truthy (inherited_member t))
  | _ => false
  end.




(** A wire graph of one node, with one edge whose type is not specified. *)
Definition sample_wire_nodes : dict wire_node :=
  [("q1", {| wn_id := "q1"; wn_type := VStr "userQuery"; wn_position := origin;
             wn_data := VObj [("type", VStr "userQuery");
                              ("config", VObj [("query", VStr "hello")])] |})].



(** * Further parts of the store and of the pages *)

(** ** Adding a node *)

Definition llm_defaults : obj :=
  [ ("model", VStr "GPT-4o-Mini"); ("apiKey", VStr "");
    ("temperature", VStr "0.7"); ("webSearchEnabled", VBool false);
    ("serpApiKey", VStr "");
    ("prompt", VStr "You are a helpful AI assistant. Use the provided context to answer questions.

CONTEXT: {context}
User Query: {query}

Please provide a comprehensive answer.") ].

Definition knowledge_defaults : obj :=
  [ ("embeddingModel", VStr "text-embedding-3-large"); ("apiKey", VStr "");
    ("uploadedFileName", VStr ""); ("uploadedFile", VNull) ].

(** The [switch (node.data.type)] of [addNode]. *)
Definition initialConfig (type : value) : obj :=
  if is_str type "llmNode" then llm_defaults
  else if is_str type "knowledgeBaseNode" then knowledge_defaults
  else if is_str type "userQueryNode"
       then [("query", VStr "Write your query here")]
  else if is_str type "outputNode"
       then [("output", VStr "Workflow output will appear here.")]
  else if is_str type "webSearchNode" then [("serpApiKey", VStr "")]
  else [].

(** [{ ...node, data: { ...node.data, name: ..., config: { ...initialConfig,
    ...node.data.config } } }]. *)
Definition nodeWithDefaults (n : node) : node :=
  {| n_id := n_id n;
     n_type := n_type n;
     n_position := n_position n;
     n_data :=
       set_prop "config"
         (VObj (assign (initialConfig (data_type n))
                       (own_props (get_prop "config" (n_data n)))))
         (set_prop "name"
            (or_else (get_prop "name" (n_data n)) (getNodeName (data_type n)))
            (n_data n));
     n_other := n_other n |}.

Definition addNode (n : node) (st : state) : state :=
  with_nodes st (nodes st ++ [nodeWithDefaults n]).

(** ** Dropping a component on the canvas *)

Definition componentTypes : list (string * string) :=
  [ ("userQueryNode", "User Query"); ("llmNode", "LLM (OpenAI)");
    ("knowledgeBaseNode", "Knowledge Base"); ("outputNode", "Output") ].

Definition getNodeLabel (type : string) : string :=
  match find (fun c => fst c =? type) componentTypes with
  | Some component => snd component
  | None => type
  end.

(** [getNodeName] of the builder page, which knows four types. *)
Definition page_getNodeName (type : string) : string :=
  if type =? "userQueryNode" then "UserQuery"
  else if type =? "knowledgeBaseNode" then "KnowledgeBase"
  else if type =? "llmNode" then "LLMEngine"
  else if type =? "outputNode" then "Output"
  else type.

Definition getDefaultConfig (type : string) : obj :=
  if type =? "llmNode" then
    [ ("model", VStr "GPT-4o-Mini"); ("apiKey", VStr "");
      ("temperature", VStr "0.7"); ("webSearchEnabled", VBool false);
      ("serpApiKey", VStr "");
      ("prompt", VStr "You are a helpful AI assistant.") ]
  else if type =? "knowledgeBaseNode" then knowledge_defaults
  else if type =? "userQueryNode"
       then [("query", VStr "Write your query here")]
  else if type =? "outputNode"
       then [("output", VStr "Workflow output will appear here.")]
  else [].

(** The node [onDrop] hands to [addNode]; [now] is [Date.now()] and
    [position] the result of [screenToFlowPosition]. *)
Definition dropped_node (now : Z) (type : string) (position : value) : node :=
  {| n_id := type ++ "_" ++ string_of_Z now;
     n_type := VStr type;
     n_position := position;
     n_data := [ ("label", VStr (getNodeLabel type));
                 ("name", VStr (page_getNodeName type));
                 ("type", VStr type);
                 ("config", VObj (getDefaultConfig type)) ];
     n_other := [] |}.

(** [onDrop], where [type] is the string read from the drag event. *)
Definition onDrop (now : Z) (type : string) (position : value) (st : state)
  : state :=
  if negb (type =? "") then addNode (dropped_node now type position) st
  else st.

(** ** Offering the web search component *)

Definition isWebSearchVisible (ns : list node) (es : list edge) : bool :=
  let userQueryNodes := filter (fun n => is_str (n_type n) "userQueryNode") ns in
  let llmNodes := filter (fun n => is_str (n_type n) "llmNode") ns in
  existsb
    (fun uqNode =>
       existsb
         (fun llmNode =>
            existsb
              (fun edge =>
                 (is_str (e_source edge) (n_id uqNode)
                  && is_str (e_target edge) (n_id llmNode))
                 || (is_str (e_source edge) (n_id llmNode)
                     && is_str (e_target edge) (n_id uqNode)))
              es)
         llmNodes)
    userQueryNodes.

(** ** Deleting the selection *)

Section Selection.

(** [edge.selected], a flag the renderer keeps on an edge. *)
Variable edge_selected : edge -> bool.

(** [node.selected]. *)
Definition node_selected (n : node) : bool :=
  truthy (get_prop "selected" (n_other n)).

(** The [Delete] and [Backspace] branch of [handleKeyDown]: every selected
    node of the render is removed, then every selected edge. *)
Definition deleteSelection (st : state) : state :=
  let selectedNodes := filter node_selected (nodes st) in
  let selectedEdges := filter edge_selected (edges st) in
  fold_left (fun s e => removeEdge (e_id e) s) selectedEdges
    (fold_left (fun s n => removeNode (n_id n) s) selectedNodes st).

End Selection.

(** ** The save button of the builder page *)

(** The React state written by [handleSaveWorkflow]: the banner it shares
    with the run button, and its own flag. *)
Record builder : Type := mkBuilder {
  shown : page;
  isSaving : bool
}.

Definition saved_banner : value :=
  VObj [ ("success", VBool true);
         ("message", VStr "Workflow saved successfully!");
         ("type", VStr "save") ].

Definition save_failed_banner (message : string) : value :=
  VObj [ ("success", VBool false);
         ("message", VStr "Failed to save workflow. Please try again.");
         ("type", VStr "save"); ("error", VStr message) ].

(** [handleSaveWorkflow]; the timers that hide the banner are left out. *)
Definition handleSaveWorkflow (net : network) (b : builder) (w : world)
  : builder * world :=
  match saveWorkflow net w with
  | (Returned result, w') =>
      if truthy result
      then ({| shown := {| isExecuting := isExecuting (shown b);
                           executionResult := saved_banner;
                           showResult := true |};
               isSaving := false |}, w')
      else ({| shown := shown b; isSaving := false |}, w')
  | (Thrown message, w') =>
      ({| shown := {| isExecuting := isExecuting (shown b);
                      executionResult := save_failed_banner message;
                      showResult := true |};
          isSaving := false |}, w')
  end.

(** ** Identifiers of document uploads *)

Definition in_range (lo hi : nat) (c : ascii) : bool :=
  (lo <=? nat_of_ascii c)%nat && (nat_of_ascii c <=? hi)%nat.

(** [[0-9a-f]] under the flag [i]. *)
Definition is_hex (c : ascii) : bool :=
  in_range 48 57 c || in_range 97 102 c || in_range 65 70 c.

(** [[1-5]]. *)
Definition is_version (c : ascii) : bool := in_range 49 53 c.

(** [[89ab]] under the flag [i]. *)
Definition is_variant (c : ascii) : bool :=
  in_range 56 57 c || in_range 97 98 c || in_range 65 66 c.

Definition is_dash (c : ascii) : bool := Ascii.eqb c "-".

(** The character classes of [uuidRegex], between [^] and [$]. *)
Definition uuid_classes : list (ascii -> bool) :=
  (repeat is_hex 8 ++ [is_dash] ++ repeat is_hex 4 ++ [is_dash]
     ++ [is_version] ++ repeat is_hex 3 ++ [is_dash]
     ++ [is_variant] ++ repeat is_hex 3 ++ [is_dash] ++ repeat is_hex 12)%list.

(** The whole string is one character of each class, in order. *)
Fixpoint matches_classes (classes : list (ascii -> bool)) (str : string)
  : bool :=
  match classes, str with
  | [], EmptyString => true
  | class :: rest, String c str' => class c && matches_classes rest str'
  | _, _ => false
  end.

Definition isValidUUID (str : string) : bool := matches_classes uuid_classes str.

(** [v.toString(16)]. *)
Definition to_hex (v : Z) : string :=
  HexadecimalString.NilZero.string_of_int (Z.to_hex_int v).

(** [template.replace(/[xy]/g, c => ...)]; [random k] is the value of
    [Math.random() * 16 | 0] in the call for the [k]-th match. *)
Fixpoint replace_xy (template : string) (random : nat -> Z) (k : nat)
  : string :=
  match template with
  | EmptyString => EmptyString
  | String c rest =>
      if Ascii.eqb c "x" then
        to_hex (random k) ++ replace_xy rest random (S k)
      else if Ascii.eqb c "y" then
        to_hex (Z.lor (Z.land (random k) 3) 8) ++ replace_xy rest random (S k)
      else String c (replace_xy rest random k)
  end.

Definition generateUUID (random : nat -> Z) : string :=
  replace_xy "xxxxxxxx-xxxx-4xxx-yxxx-xxxxxxxxxxxx" random 0.


(** ** Editing a setting of a node *)

(** [updateNodeConfig(id, { [key]: value })], the handler of the language
    model and web search nodes. *)
Definition handleConfigChange (id key : string) (v : value) (st : state)
  : state :=
  updateNodeConfig id [(key, v)] st.

(** [updateNodeConfig(id, { ...data.config, [key]: value })], the handler of
    the knowledge-base node; [data_config] is the config of the render. *)
Definition handleConfigChange_spread (id : string) (data_config : value)
  (key : string) (v : value) (st : state) : state :=
  updateNodeConfig id (set_prop key v (own_props data_config)) st.

(** ** Vocabulary of the further statements *)

Definition found (o : option node) : bool :=
  match o with Some _ => true | None => false end.

(** Every edge starts and ends at the id of a node of the array. *)
Definition referential (ns : list node) (es : list edge) : bool :=
  forallb (fun e => found (find_node (e_source e) ns)
                    && found (find_node (e_target e) ns)) es.

(** A type name of the editor side: a non-empty string that is neither one
    of the five service names nor a member inherited from
    [Object.prototype]. *)
Definition editor_type (v : value) : bool :=
  match v with
  | VStr t =>
      negb (t =? "")
      && match find (fun kv => fst kv =? t) backend_to_frontend with
         | Some _ => false
         | None => true
         end
      && negb (truthy (inherited_member t))
  | _ => false
  end.



(** The five texts with which the run button refuses a graph. *)
Definition readiness_reasons : list string :=
  [ "Please add a User Query node to your workflow";
    query_reason;
    "Please add an Output node to your workflow";
    "Please add an LLM node to your workflow";
    key_reason ].

(** The edge joins the two nodes, in one direction or the other. *)
Definition joins (a b : node) (e : edge) : Prop :=
  (e_source e = VStr (n_id a) /\ e_target e = VStr (n_id b))
  \/ (e_source e = VStr (n_id b) /\ e_target e = VStr (n_id a)).

(** The draws of [generateUUID] are hexadecimal digits. *)
Definition digits (random : nat -> Z) : Prop :=
  forall k, (0 <= random k < 16)%Z.

(** A graph of a query node, a language model and an output node in a
    chain, with the language model selected. *)
Definition selected_llm : node :=
  {| n_id := "l1"; n_type := VStr "llmNode"; n_position := origin;
     n_data := [("type", VStr "llmNode");
                ("config", VObj [("apiKey", VStr "sk-1")])];
     n_other := [("selected", VBool true)] |}.

Definition chain_state : state :=
  sample_state [query_node "hello"; selected_llm; output_node]
    [sample_edge "e1" "q1" "l1"; sample_edge "e2" "l1" "o1"].

(** A service that files every workflow under the id [canonical-id]. *)
Definition renaming_network : network :=
  {| on_save := fun _ =>
       Resolved (mkResponse 200 ""
                   (Json (VObj [("stack_id", VStr "canonical-id")])));
     on_load := fun _ => Rejected "Failed to fetch";
     on_execute := fun _ _ =>
       Resolved (mkResponse 500 "boom" (NotJson "not JSON")) |}.

(** A service that returns the graph of one query node on every load. *)
Definition serving_network : network :=
  {| on_save := fun _ => Rejected "Failed to fetch";
     on_load := fun _ =>
       Resolved (mkResponse 200 ""
                   (Json {| data_stack_id := VUndef;
                            data_nodes := Some sample_wire_nodes;
                            data_edges := None;
                            data_name := VStr "Demo";
                            data_description := VUndef |}));
     on_execute := fun _ _ => Rejected "Failed to fetch" |}.

(** The save of the store of [w] is answered with a status in 200..299 and
    the JSON body [saveResult]. *)
Definition save_succeeds (net : network) (w : world) (saveResult : value)
  : Prop :=
  let workflowId := selectedWorkflowId (store w) in
  truthy workflowId = true
  /\ exists res,
       on_save net (build_payload workflowId (store w)) = Resolved res
       /\ ok res = true /\ json res = Json saveResult.

(** The text of the error raised for a failed execution. *)
Definition execute_error (answer : fetched value) : string :=
  match answer with
  | Rejected message => message
  | Resolved res =>
      "Failed to execute workflow: " ++ string_of_Z (status res) ++ " "
        ++ text res
  end.

(** The id bound by a successful save: the [stack_id] of the answer when it
    is truthy and differs from the id in use, the id in use otherwise. *)
Definition id_after_save (workflowId saveResult : value) : value :=
  let new_id := opt_prop saveResult "stack_id" in
  if truthy new_id && negb (strict_eq new_id workflowId) then new_id
  else workflowId.




(** * Properties *)

(** ** Property lists *)

Lemma get_set_same (k : string) (v : value) (o : obj) :
  get_prop k (set_prop k v o) = v.
Proof.
  induction o as [|[k' v'] r IH]; simpl.
  - now rewrite String.eqb_refl.
  - destruct (k =? k') eqn:E; simpl; rewrite ?String.eqb_refl, ?E; auto.
Qed.

Lemma get_set_other (k k' : string) (v : value) (o : obj) :
  k <> k' -> get_prop k (set_prop k' v o) = get_prop k o.
Proof.
  intros Hne. apply String.eqb_neq in Hne.
  induction o as [|[k2 v2] r IH]; simpl.
  - now rewrite Hne.
  - destruct (k' =? k2) eqn:E; simpl.
    + apply String.eqb_eq in E. subst k2. now rewrite Hne.
    + now rewrite IH.
Qed.

Lemma has_set_same (k : string) (v : value) (o : obj) :
  has_prop k (set_prop k v o) = true.
Proof.
  induction o as [|[k' v'] r IH]; simpl.
  - now rewrite String.eqb_refl.
  - destruct (k =? k') eqn:E; simpl; rewrite ?String.eqb_refl, ?E; auto.
Qed.

Lemma has_set_other (k k' : string) (v : value) (o : obj) :
  k <> k' -> has_prop k (set_prop k' v o) = has_prop k o.
Proof.
  intros Hne. apply String.eqb_neq in Hne.
  induction o as [|[k2 v2] r IH]; simpl.
  - now rewrite Hne.
  - destruct (k' =? k2) eqn:E; simpl.
    + apply String.eqb_eq in E. subst k2. now rewrite Hne.
    + now rewrite IH.
Qed.

Lemma has_prop_In (k : string) (o : obj) :
  has_prop k o = true <-> In k (map fst o).
Proof.
  induction o as [|[k' v'] r IH]; simpl.
  - split; [discriminate | tauto].
  - rewrite orb_true_iff, IH, String.eqb_eq. intuition congruence.
Qed.



Lemma set_prop_keys (k : string) (v : value) (o : obj) :
  has_prop k o = true -> map fst (set_prop k v o) = map fst o.
Proof.
  induction o as [|[k' v'] r IH]; simpl; [discriminate|].
  destruct (k =? k') eqn:E; simpl.
  - apply String.eqb_eq in E. now subst.
  - intros H. now rewrite IH.
Qed.

(** [{ ...o, ...src }] keeps every property of [o] that [src] does not
    name, ... *)
Lemma get_assign_other (k : string) (src o : obj) :
  has_prop k src = false -> get_prop k (assign o src) = get_prop k o.
Proof.
  unfold assign. revert o.
  induction src as [|[k' v'] r IH]; simpl; intros o H; auto.
  apply orb_false_iff in H as [Hk Hr].
  rewrite IH by assumption.
  apply get_set_other. now apply String.eqb_neq.
Qed.

Lemma has_assign (k : string) (src o : obj) :
  has_prop k (assign o src) = has_prop k o || has_prop k src.
Proof.
  unfold assign. revert o.
  induction src as [|[k' v'] r IH]; simpl; intros o.
  - now rewrite orb_false_r.
  - rewrite IH. destruct (k =? k') eqn:E; simpl.
    + apply String.eqb_eq in E. subst k'. rewrite has_set_same.
      now rewrite orb_true_r.
    + rewrite has_set_other by now apply String.eqb_neq. reflexivity.
Qed.

(** ... and takes from [src] every property that [src] names. *)
Lemma get_assign_named (k : string) (src o : obj) :
  NoDup (map fst src) -> has_prop k src = true ->
  get_prop k (assign o src) = get_prop k src.
Proof.
  unfold assign. revert o.
  induction src as [|[k' v'] r IH]; simpl; intros o Hnd H; [discriminate|].
  inversion Hnd as [|? ? Hnotin Hnd']; subst.
  destruct (k =? k') eqn:E; simpl in H.
  - apply String.eqb_eq in E. subst k'.
    assert (Hr : has_prop k r = false).
    { destruct (has_prop k r) eqn:Hh; auto.
      apply has_prop_In in Hh. contradiction. }
    fold (assign (set_prop k v' o) r).
    rewrite get_assign_other by assumption. apply get_set_same.
  - now apply IH.
Qed.

(** ** Graph store *)

Lemma filter_all {A : Type} (f : A -> bool) (l : list A) :
  (forall a, In a l -> f a = true) -> filter f l = l.
Proof.
  induction l as [|a l IH]; simpl; intros H; auto.
  rewrite (H a) by auto. f_equal. apply IH. auto.
Qed.

Lemma filter_split_length {A : Type} (f : A -> bool) (l : list A) :
  List.length (filter f l) + List.length (filter (fun a => negb (f a)) l)
  = List.length l.
Proof.
  induction l as [|a l IH]; simpl; auto.
  destruct (f a); simpl; lia.
Qed.

(** With distinct ids, exactly one node carries an id that occurs. *)
Lemma unique_id_once (X : string) (ns : list node) :
  NoDup (map n_id ns) -> In X (map n_id ns) ->
  List.length (filter (fun n => n_id n =? X) ns) = 1.
Proof.
  induction ns as [|n ns IH]; simpl; intros Hnd Hin; [contradiction|].
  inversion Hnd as [|? ? Hnot Hnd']; subst.
  destruct (n_id n =? X) eqn:E; simpl.
  - apply String.eqb_eq in E. subst X. f_equal.
    assert (H : filter (fun m => n_id m =? n_id n) ns = []).
    { clear -Hnot. induction ns as [|m ns IH]; simpl in *; auto.
      destruct (n_id m =? n_id n) eqn:E.
      - apply String.eqb_eq in E. exfalso. apply Hnot. auto.
      - apply IH. tauto. }
    now rewrite H.
  - apply String.eqb_neq in E. destruct Hin as [Hin|Hin]; [congruence|].
    now apply IH.
Qed.

(** C5: [removeNode X] keeps, in order, exactly the nodes whose id is not [X]
    (so it leaves the node array alone when no node has that id) and exactly
    the edges whose source and target both differ from [X]; no edge left
    refers to [X]; the rest of the state is untouched.  When ids are distinct,
    [X] is the id of a node and two edges are connected to it, one node and
    two edges disappear. *)
Theorem removeNode_no_dangling (X : string) (st : state) :
  let st' := removeNode X st in
  (forall n, In n (nodes st') <-> In n (nodes st) /\ n_id n <> X)
  /\ ((forall n, In n (nodes st) -> n_id n <> X) -> nodes st' = nodes st)
  /\ (forall e, In e (edges st') <-> In e (edges st) /\ touches X e = false)
  /\ (forall e, In e (edges st') ->
        e_source e <> VStr X /\ e_target e <> VStr X)
  /\ selectedWorkflowId st' = selectedWorkflowId st
  /\ (NoDup (map n_id (nodes st)) -> In X (map n_id (nodes st)) ->
      List.length (filter (touches X) (edges st)) = 2 ->
      List.length (nodes st') + 1 = List.length (nodes st)
      /\ List.length (edges st') + 2 = List.length (edges st)).
Proof.
  assert (Hedge : forall e,
            (negb (is_str (e_source e) X) && negb (is_str (e_target e) X))
            = negb (touches X e)).
  { intros e. unfold touches. now rewrite negb_orb. }
  simpl. split; [|split; [|split; [|split; [|split]]]].
  - intros n. rewrite filter_In, negb_true_iff, String.eqb_neq. tauto.
  - intros H. apply filter_all. intros n Hn.
    apply negb_true_iff. apply String.eqb_neq. auto.
  - intros e. rewrite filter_In, Hedge, negb_true_iff. tauto.
  - intros e He. apply filter_In in He as [_ He].
    apply andb_true_iff in He as [Hs Ht].
    split; intros Heq; [rewrite Heq in Hs | rewrite Heq in Ht]; simpl in *;
      now rewrite String.eqb_refl in *.
  - reflexivity.
  - intros Hnd Hin Htwo. split.
    + pose proof (filter_split_length (fun n => n_id n =? X) (nodes st)) as Hs.
      rewrite (unique_id_once X (nodes st)) in Hs by assumption. lia.
    + pose proof (filter_split_length (touches X) (edges st)) as Hs.
      rewrite (filter_ext _ _ Hedge). lia.
Qed.

(** Witness for C5: removing the language-model node of a three-node chain
    removes that node and the two edges connected to it. *)
Lemma removeNode_no_dangling_witness :
  let st := sample_state
              [query_node "hello"; llm_node "l1" "sk-1"; output_node]
              [sample_edge "e1" "q1" "l1"; sample_edge "e2" "l1" "o1";
               sample_edge "e3" "q1" "o1"] in
  List.length (nodes (removeNode "l1" st)) + 1 = 3
  /\ List.length (edges (removeNode "l1" st)) + 2 = 3.
Proof.
  intros st.
  apply (proj2 (proj2 (proj2 (proj2 (proj2
           (removeNode_no_dangling "l1" st)))))).
  - repeat constructor; simpl; intuition discriminate.
  - simpl. tauto.
  - reflexivity.
Defined.

Lemma config_merge_config (newConfig : obj) (n : node) :
  config (merge_config newConfig n) = assign (config n) newConfig.
Proof. unfold config, merge_config. simpl. now rewrite get_set_same. Qed.

Lemma map_unchanged {A : Type} (f : A -> A) (l : list A) :
  (forall a, In a l -> f a = a) -> map f l = l.
Proof.
  induction l as [|a l IH]; simpl; intros H; auto.
  rewrite H by auto. f_equal. apply IH. auto.
Qed.

Lemma Forall2_map_right {A : Type} (R : A -> A -> Prop) (f : A -> A)
  (l : list A) :
  (forall a, R a (f a)) -> Forall2 R l (map f l).
Proof. intros H. induction l; simpl; constructor; auto. Qed.

(** C9: [updateNodeConfig id partial] leaves the edges and the rest of the
    state alone and rewrites the node array position by position.  A node
    with another id is kept as it is.  A node with that id keeps its id,
    type, position and every property of [data] but [config]; in its new
    config every key that [partial] does not name is present exactly when it
    was and holds the value it held, and every key that [partial] names is
    present and holds the value given by [partial].  When no node has the
    id, the state is unchanged. *)
Theorem updateNodeConfig_shallow_merge (nodeId : string) (newConfig : obj)
  (st : state) :
  let st' := updateNodeConfig nodeId newConfig st in
  edges st' = edges st
  /\ selectedWorkflowId st' = selectedWorkflowId st
  /\ Forall2
       (fun n n' =>
          n_id n' = n_id n /\ n_type n' = n_type n
          /\ n_position n' = n_position n /\ n_other n' = n_other n
          /\ (n_id n <> nodeId -> n' = n)
          /\ (n_id n = nodeId ->
              (forall k, k <> "config" ->
                         get_prop k (n_data n') = get_prop k (n_data n))
              /\ (forall k, has_prop k newConfig = false ->
                    get_prop k (config n') = get_prop k (config n)
                    /\ has_prop k (config n') = has_prop k (config n))
              /\ (forall k, has_prop k newConfig = true ->
                    has_prop k (config n') = true)
              /\ (NoDup (map fst newConfig) ->
                  forall k, has_prop k newConfig = true ->
                    get_prop k (config n') = get_prop k newConfig)))
       (nodes st) (nodes st')
  /\ ((forall n, In n (nodes st) -> n_id n <> nodeId) -> st' = st).
Proof.
  simpl. split; [reflexivity|]. split; [reflexivity|]. split.
  - apply Forall2_map_right. intros n.
    destruct (n_id n =? nodeId) eqn:E.
    + apply String.eqb_eq in E.
      do 4 (split; [reflexivity|]). split; [congruence|].
      intros _. rewrite config_merge_config. split; [|split; [|split]].
      * intros k Hk. simpl. now apply get_set_other.
      * intros k Hk. rewrite get_assign_other, has_assign, Hk by assumption.
        now rewrite orb_false_r.
      * intros k Hk. rewrite has_assign, Hk. apply orb_true_r.
      * intros Hnd k Hk. now apply get_assign_named.
    + apply String.eqb_neq in E.
      do 5 (split; [reflexivity|]). congruence.
  - intros Habsent. unfold updateNodeConfig, with_nodes.
    rewrite map_unchanged.
    + now destruct st.
    + intros n Hn. apply Habsent in Hn. apply String.eqb_neq in Hn.
      now rewrite Hn.
Qed.

(** Witness for C9: an update addressed to an id that no node carries
    leaves the state as it is. *)
Lemma updateNodeConfig_shallow_merge_witness :
  let st := sample_state [query_node "hello"; output_node] [] in
  updateNodeConfig "l1" [("apiKey", VStr "sk-1")] st = st.
Proof.
  intros st.
  apply (proj2 (proj2 (proj2
           (updateNodeConfig_shallow_merge "l1" [("apiKey", VStr "sk-1")]
              st)))).
  intros n [<-|[<-|[]]]; discriminate.
Defined.

(** An update of one key of the output node keeps the other key. *)
Example updateNodeConfig_keeps_other_keys :
  nodes (updateNodeConfig "l1" [("apiKey", VStr "sk-2")]
           (sample_state [llm_node "l1" "sk-1"] []))
  = [sample_node "l1" "llmNode"
       [("model", VStr "GPT-4o-Mini"); ("apiKey", VStr "sk-2")]].
Proof. reflexivity. Qed.

(** ** Secret extractor *)

Lemma opt_prop_falsy (v : value) (k : string) :
  truthy v = false -> opt_prop v k = VUndef.
Proof. destruct v; simpl; auto; discriminate. Qed.

(** One step of the scan overwrites a field exactly when the node offers a
    value for it. *)
Lemma collect_keys_get (k : string) (acc : obj) (n : node) :
  In k credential_fields ->
  get_prop k (collect_keys acc n)
  = if offers k n then credential k n else get_prop k acc.
Proof.
  unfold collect_keys, offers, credential, config_of.
  destruct (truthy (get_prop "config" (n_data n))) eqn:Hc.
  - remember (opt_prop (get_prop "config" (n_data n)) "apiKey") as a.
    remember (opt_prop (get_prop "config" (n_data n)) "serpApiKey") as s.
    intros [<-|[<-|[<-|[]]]]; simpl;
      destruct (of_kind n "llmNode"), (of_kind n "knowledgeBaseNode"),
        (of_kind n "webSearchNode"); simpl;
      destruct (truthy a) eqn:Ha; destruct (truthy s) eqn:Hs; simpl;
      repeat (rewrite get_set_same || rewrite get_set_other by discriminate);
      reflexivity.
  - rewrite !(opt_prop_falsy _ _ Hc).
    intros [<-|[<-|[<-|[]]]]; simpl;
      destruct (of_kind n "llmNode"), (of_kind n "knowledgeBaseNode"),
        (of_kind n "webSearchNode"); reflexivity.
Qed.

(** After the scan a field holds the value of the last node that offers
    one. *)
Lemma scan_get (k : string) (ns : list node) (acc : obj) :
  In k credential_fields ->
  get_prop k (fold_left collect_keys ns acc)
  = match find (offers k) (rev ns) with
    | Some n => credential k n
    | None => get_prop k acc
    end.
Proof.
  intros Hk. induction ns as [|n ns IH] using rev_ind; simpl; auto.
  rewrite fold_left_app, rev_app_distr. simpl.
  rewrite collect_keys_get by assumption.
  destruct (offers k n); auto.
Qed.

Lemma find_skip {A : Type} (f : A -> bool) (l r : list A) :
  (forall a, In a l -> f a = false) -> find f (l ++ r) = find f r.
Proof.
  induction l as [|a l IH]; simpl; intros H; auto.
  rewrite (H a) by auto. apply IH. auto.
Qed.

Lemma find_none_iff {A : Type} (f : A -> bool) (l : list A) :
  (forall a, In a l -> f a = false) -> find f l = None.
Proof.
  induction l as [|a l IH]; simpl; intros H; auto.
  rewrite (H a) by auto. apply IH. auto.
Qed.

(** The bundle holds a field exactly when the scanned value is truthy. *)
Lemma bundle_entries (ns : list node) (k : string) (v : value) :
  In (k, v) (extractApiKeys ns) ->
  In k credential_fields
  /\ v = get_prop k (fold_left collect_keys ns no_keys) /\ truthy v = true.
Proof.
  unfold extractApiKeys, keep_key, credential_fields.
  set (apiKeys := fold_left collect_keys ns no_keys).
  destruct (truthy (get_prop "llm" apiKeys)) eqn:H1;
    destruct (truthy (get_prop "knowledge" apiKeys)) eqn:H2;
    destruct (truthy (get_prop "websearch" apiKeys)) eqn:H3;
    simpl; intros H;
    repeat match goal with
           | H : _ \/ _ |- _ => destruct H as [H|H]
           | H : (_, _) = (_, _) |- _ => inversion H; subst; clear H
           | H : False |- _ => contradiction
           end; auto 6.
Qed.

Lemma bundle_get (ns : list node) (k : string) :
  In k credential_fields ->
  let v := get_prop k (fold_left collect_keys ns no_keys) in
  get_prop k (extractApiKeys ns) = (if truthy v then v else VUndef)
  /\ has_prop k (extractApiKeys ns) = truthy v.
Proof.
  unfold extractApiKeys, keep_key.
  set (apiKeys := fold_left collect_keys ns no_keys).
  intros [<-|[<-|[<-|[]]]]; simpl;
    destruct (truthy (get_prop "llm" apiKeys)) eqn:H1;
    destruct (truthy (get_prop "knowledge" apiKeys)) eqn:H2;
    destruct (truthy (get_prop "websearch" apiKeys)) eqn:H3;
    simpl; rewrite ?H1, ?H2, ?H3; auto.
Qed.

Lemma scan_offered (k : string) (ns : list node) :
  In k credential_fields ->
  truthy (get_prop k (fold_left collect_keys ns no_keys)) = true <->
  exists n, In n ns /\ offers k n = true.
Proof.
  intros Hk. rewrite scan_get by assumption.
  destruct (find (offers k) (rev ns)) as [n|] eqn:Hf.
  - apply find_some in Hf as [Hin Hn]. apply in_rev in Hin.
    split; [eauto | intros _; exact Hn].
  - assert (Hempty : truthy (get_prop k no_keys) = false).
    { destruct Hk as [<-|[<-|[<-|[]]]]; reflexivity. }
    rewrite Hempty. split; [discriminate|].
    intros (n & Hin & Hn). apply in_rev in Hin.
    now rewrite (find_none _ _ Hf n Hin) in Hn.
Qed.

(** What [saveWorkflow] puts on the wire: nothing without a workflow id,
    otherwise one save request carrying the payload built from the store. *)
Lemma saveWorkflow_sent (net : network) (w : world) :
  sent (snd (saveWorkflow net w))
  = if truthy (selectedWorkflowId (store w))
    then (sent w
           ++ [PostWorkflow (build_payload (selectedWorkflowId (store w))
                                           (store w))])%list
    else sent w.
Proof.
  unfold saveWorkflow, bind, get, fetch, issue, throw, ret, body, member, set.
  simpl. destruct (truthy (selectedWorkflowId (store w))); simpl; auto.
  destruct (on_save net _) as [m|res]; simpl; auto.
  destruct (ok res); simpl; auto.
  destruct (json res) as [m|result]; simpl; auto.
  destruct result; simpl; auto;
    match goal with
    | |- context [if ?c then _ else _] => destruct c; reflexivity
    end.
Qed.

(** C6: every field of the bundle built at save time is one of [llm],
    [knowledge] and [websearch] and holds the non-empty value that some node
    offers for it (never the empty string, [undefined] or [null]; a
    non-empty string whenever that node holds a string or nothing there); a
    field is present exactly when some node offers a non-empty value for it;
    and in the save request the bundle is the object of the fields present,
    or [null] when no node offers any value. *)
Theorem extractApiKeys_only_non_empty (ns : list node) :
  let bundle := extractApiKeys ns in
  (forall k v, In (k, v) bundle ->
     In k credential_fields /\ truthy v = true
     /\ v <> VStr "" /\ v <> VUndef /\ v <> VNull
     /\ exists n, In n ns /\ credential k n = v
          /\ (textual (credential k n) = true ->
              exists s, v = VStr s /\ s <> ""))
  /\ (forall k, In k credential_fields ->
        (has_prop k bundle = true <-> exists n, In n ns /\ offers k n = true))
  /\ (forall net w, nodes (store w) = ns ->
        truthy (selectedWorkflowId (store w)) = true ->
        exists payload,
          sent (snd (saveWorkflow net w))
          = (sent w ++ [PostWorkflow payload])%list
          /\ api_keys payload
             = if existsb (fun k => existsb (offers k) ns) credential_fields
               then VObj bundle else VNull).
Proof.
  simpl. split; [|split].
  - intros k v Hin. apply bundle_entries in Hin as (Hk & Hv & Ht).
    split; [assumption|]. split; [assumption|].
    repeat split; try (intros ->; discriminate).
    rewrite scan_get in Hv by assumption.
    destruct (find (offers k) (rev ns)) as [n|] eqn:Hf.
    + apply find_some in Hf as [Hn _]. apply in_rev in Hn.
      exists n. split; [assumption|]. split; [now symmetry|].
      rewrite <- Hv. intros Htext.
      destruct v; try discriminate. exists s. split; [reflexivity|].
      intros ->. discriminate Ht.
    + subst v. destruct Hk as [<-|[<-|[<-|[]]]]; discriminate.
  - intros k Hk. destruct (bundle_get ns k Hk) as [_ ->].
    now apply scan_offered.
  - intros net w Hns Hid. rewrite saveWorkflow_sent, Hid.
    eexists. split; [reflexivity|]. simpl. rewrite Hns.
    assert (Hhas : forall k, In k credential_fields ->
                     has_prop k (extractApiKeys ns) = existsb (offers k) ns).
    { intros k Hk. destruct (bundle_get ns k Hk) as [_ ->].
      apply eq_true_iff_eq. rewrite scan_offered by assumption.
      now rewrite existsb_exists. }
    pose proof (Hhas "llm" (or_introl eq_refl)) as H1.
    pose proof (Hhas "knowledge" (or_intror (or_introl eq_refl))) as H2.
    pose proof (Hhas "websearch"
                  (or_intror (or_intror (or_introl eq_refl)))) as H3.
    rewrite orb_false_r, <- H1, <- H2, <- H3.
    destruct (extractApiKeys ns) as [|[k v] r] eqn:Hb; [reflexivity|].
    assert (Hin : In (k, v) (extractApiKeys ns)) by (rewrite Hb; now left).
    apply bundle_entries in Hin as ([<-|[<-|[<-|[]]]] & _ & _); simpl;
      now rewrite ?orb_true_r.
Qed.

(** C10: when several nodes offer a value for the same field of the bundle,
    the bundle carries the value of the last of them in array order. *)
Theorem extractApiKeys_last_wins (k : string) (before after : list node)
  (n : node) :
  In k credential_fields ->
  offers k n = true ->
  (forall m, In m after -> offers k m = false) ->
  get_prop k (extractApiKeys (before ++ n :: after)) = credential k n.
Proof.
  intros Hk Hn Hafter.
  destruct (bundle_get (before ++ n :: after) k Hk) as [-> _].
  rewrite scan_get by assumption.
  rewrite rev_app_distr. simpl. rewrite <- app_assoc. simpl.
  rewrite find_skip.
  - simpl. rewrite Hn. now unfold offers in Hn; rewrite Hn.
  - intros m Hm. apply in_rev in Hm. auto.
Qed.

(** Witness for C10: of two language-model nodes with
    a key each, the bundle carries the key of the second. *)
Lemma extractApiKeys_last_wins_witness :
  get_prop "llm"
    (extractApiKeys ([llm_node "l1" "sk-first"]
                       ++ llm_node "l2" "sk-second" :: [output_node]))
  = VStr "sk-second".
Proof.
  apply (extractApiKeys_last_wins "llm" [llm_node "l1" "sk-first"]
           [output_node] (llm_node "l2" "sk-second")).
  - simpl. auto.
  - reflexivity.
  - intros m [<-|[]]. reflexivity.
Defined.

(** ** Connecting *)

(** C2, as stated, fails: connecting an existing node to an id that no node
    carries adds an edge. *)
Lemma onConnect_unknown_target_adds_edge :
  ~ (forall (now : Z) (c : connection) (st : state),
       find_node (c_source c) (nodes st) = None
       \/ find_node (c_target c) (nodes st) = None ->
       edges (onConnect now c st) = edges st).
Proof.
  intros H.
  specialize (H 1700000000000%Z (plain_connection "q1" "ghost")
                (sample_state [query_node "hello"] [])).
  simpl in H. specialize (H (or_intror eq_refl)). discriminate H.
Qed.

(** C2, amended: when the source or the target of a connection is the id of
    no node, [onConnect] leaves the nodes alone and names the edge
    [Unknown]; the edge array is unchanged when the source or the target is
    falsy ([null], [undefined] or the empty string) or when an edge with the
    same endpoints and handles is already there, and otherwise it gains the
    new edge at its end. *)
Theorem onConnect_unknown_endpoint (now : Z) (c : connection) (st : state) :
  find_node (c_source c) (nodes st) = None
  \/ find_node (c_target c) (nodes st) = None ->
  let st' := onConnect now c st in
  let unknown := new_edge now c "Unknown" in
  nodes st' = nodes st
  /\ opt_prop (e_data unknown) "name" = VStr "Unknown"
  /\ (truthy (c_source c) = false \/ truthy (c_target c) = false ->
      edges st' = edges st)
  /\ (connectionExists unknown (edges st) = true -> edges st' = edges st)
  /\ (truthy (c_source c) = true -> truthy (c_target c) = true ->
      connectionExists unknown (edges st) = false ->
      edges st' = (edges st ++ [unknown])%list).
Proof.
  intros Hmissing.
  assert (Hname : determineEdgeName c (nodes st) = "Unknown").
  { unfold determineEdgeName.
    destruct Hmissing as [-> | Ht]; [reflexivity|].
    rewrite Ht. now destruct (find_node (c_source c) (nodes st)). }
  simpl. unfold onConnect. rewrite Hname. unfold addEdge. simpl.
  split; [reflexivity|]. split; [reflexivity|]. split; [|split].
  - intros [-> | ->]; simpl; auto. now rewrite orb_true_r.
  - intros ->. now destruct (_ || _).
  - intros -> -> ->. reflexivity.
Qed.

(** Witness for C2: the target [ghost] is no
    node, and the edge is appended to the empty edge array. *)
Lemma onConnect_unknown_endpoint_witness :
  edges (onConnect 1700000000000 (plain_connection "q1" "ghost")
           (sample_state [query_node "hello"] []))
  = [new_edge 1700000000000 (plain_connection "q1" "ghost") "Unknown"].
Proof.
  apply (onConnect_unknown_endpoint 1700000000000
           (plain_connection "q1" "ghost")
           (sample_state [query_node "hello"] []) (or_intror eq_refl));
    reflexivity.
Defined.

(** ** Readiness checks of the run button *)

Lemma filter_one_find {A : Type} (f : A -> bool) (l : list A) (x : A) :
  filter f l = [x] -> find f l = Some x.
Proof.
  induction l as [|a l IH]; simpl; [discriminate|].
  destruct (f a); [intros [= -> _]; reflexivity | assumption].
Qed.

(** C1, as stated, fails: on the graph of the scenario the result shown
    does not state the missing-key reason. *)
Lemma handleRunWorkflow_reports_first_reason_only :
  ~ (forall (net : network) (w : world) (uq out llm : node),
       only_node_of_type "userQueryNode" uq (nodes (store w)) ->
       config_of uq "query" = VStr placeholder_query ->
       only_node_of_type "outputNode" out (nodes (store w)) ->
       only_node_of_type "llmNode" llm (nodes (store w)) ->
       config_of llm "apiKey" = VStr "" ->
       let r := handleRunWorkflow net w in
       opt_prop (executionResult (fst r)) "success" = VBool false
       /\ mentions query_reason (executionResult (fst r)) = true
       /\ mentions key_reason (executionResult (fst r)) = true
       /\ sent (snd r) = sent w).
Proof.
  intros H.
  specialize (H sample_network
                (sample_world [query_node placeholder_query; output_node;
                               llm_node "l1" ""] [])
                (query_node placeholder_query) output_node (llm_node "l1" "")
                eq_refl eq_refl eq_refl eq_refl eq_refl).
  destruct H as (_ & _ & Hkey & _). vm_compute in Hkey. discriminate Hkey.
Qed.

(** C1, amended: on a graph with one query node holding the placeholder
    text, one output node and one language-model node with an empty key,
    the run stops at the query check: the result shown is a failure of type
    [execute] whose message and error are the query reason alone, the store
    is unchanged and no request is issued. *)
Theorem handleRunWorkflow_blocks_placeholder_query (net : network)
  (w : world) (uq out llm : node) :
  only_node_of_type "userQueryNode" uq (nodes (store w)) ->
  config_of uq "query" = VStr placeholder_query ->
  only_node_of_type "outputNode" out (nodes (store w)) ->
  only_node_of_type "llmNode" llm (nodes (store w)) ->
  config_of llm "apiKey" = VStr "" ->
  handleRunWorkflow net w
  = ({| isExecuting := false;
        executionResult :=
          VObj [ ("success", VBool false); ("message", VStr query_reason);
                 ("type", VStr "execute"); ("error", VStr query_reason) ];
        showResult := true |}, w)
  /\ mentions query_reason (executionResult (fst (handleRunWorkflow net w)))
     = true
  /\ mentions key_reason (executionResult (fst (handleRunWorkflow net w)))
     = false.
Proof.
  intros Huq Hq _ _ _.
  assert (Hrun : handleRunWorkflow net w
                 = ({| isExecuting := false;
                       executionResult := run_failure query_reason;
                       showResult := true |}, w)).
  { unfold handleRunWorkflow, bind, validate, find_type.
    rewrite (filter_one_find _ _ _ Huq), Hq. reflexivity. }
  rewrite Hrun. repeat split.
Qed.

(** Witness for C1. *)
Lemma handleRunWorkflow_blocks_placeholder_query_witness :
  sent (snd (handleRunWorkflow sample_network
               (sample_world [query_node placeholder_query; output_node;
                              llm_node "l1" ""] [])))
  = [].
Proof.
  rewrite (proj1 (handleRunWorkflow_blocks_placeholder_query sample_network
                    (sample_world [query_node placeholder_query; output_node;
                                   llm_node "l1" ""] [])
                    (query_node placeholder_query) output_node
                    (llm_node "l1" "")
                    eq_refl eq_refl eq_refl eq_refl eq_refl)).
  reflexivity.
Defined.

(** The missing key is reported by a run whose query check passes. *)
Lemma handleRunWorkflow_blocks_missing_key (net : network) (w : world)
  (uq out llm : node) :
  only_node_of_type "userQueryNode" uq (nodes (store w)) ->
  truthy (config_of uq "query") = true ->
  is_str (config_of uq "query") placeholder_query = false ->
  only_node_of_type "outputNode" out (nodes (store w)) ->
  only_node_of_type "llmNode" llm (nodes (store w)) ->
  truthy (config_of llm "apiKey") = false ->
  handleRunWorkflow net w
  = ({| isExecuting := false; executionResult := run_failure key_reason;
        showResult := true |}, w).
Proof.
  intros Huq Hq Hp Hout Hllm Hkey.
  unfold handleRunWorkflow, bind, validate, find_type, or_else.
  rewrite (filter_one_find _ _ _ Huq), (filter_one_find _ _ _ Hout),
    (filter_one_find _ _ _ Hllm), Hq.
  cbv iota. rewrite Hq, Hp, Hkey. reflexivity.
Qed.

(** ** Save and execute *)











(** Saving touches neither the nodes nor the edges. *)
Lemma saveWorkflow_graph (net : network) (w : world) :
  nodes (store (snd (saveWorkflow net w))) = nodes (store w)
  /\ edges (store (snd (saveWorkflow net w))) = edges (store w).
Proof.
  unfold saveWorkflow, bind, get, fetch, issue, throw, ret, body, member, set.
  simpl. destruct (truthy (selectedWorkflowId (store w))); simpl; auto.
  destruct (on_save net _) as [m|res]; simpl; auto.
  destruct (ok res); simpl; auto.
  destruct (json res) as [m|result]; simpl; auto.
  destruct result; simpl; auto;
    match goal with
    | |- context [if ?c then _ else _] => destruct c; auto
    end.
Qed.

(** Whatever the service answers, [saveAndExecuteWorkflow] never touches the
    edges, and the node array it leaves is either the one it found or that
    one with a truthy result written at the id of the first node of type
    [outputNode]. *)
Lemma saveAndExecuteWorkflow_mutates_output_only (net : network) (w : world)
  (userQuery : value) :
  let w' := snd (saveAndExecuteWorkflow net userQuery w) in
  edges (store w') = edges (store w)
  /\ (nodes (store w') = nodes (store w)
      \/ exists out result,
           find_output (nodes (store w)) = Some out
           /\ truthy result = true
           /\ nodes (store w') = write_output out result (nodes (store w))).
Proof.
  destruct (saveWorkflow_graph net w) as [Hn He].
  unfold saveAndExecuteWorkflow, try_catch, get, bind, fetch, issue, throw,
    ret, body, member, set.
  destruct (saveWorkflow net w) as [[saveResult|e] w1]; simpl in *; auto.
  destruct (truthy saveResult); simpl; auto.
  destruct (truthy (selectedWorkflowId (store w))); simpl; auto.
  destruct (on_execute net _ _) as [m|res]; simpl; auto.
  destruct (ok res); simpl; auto.
  destruct (json res) as [m|executeResult]; simpl; auto.
  destruct executeResult; simpl; auto.
  destruct (truthy (get_prop "result" fields)) eqn:Hres; simpl; auto.
  destruct (find_output (nodes (store w))) as [out|] eqn:Hout; simpl; auto.
  split; [assumption|]. right. exists out, (get_prop "result" fields).
  unfold write_output. now rewrite Hn.
Qed.

(** ** Loading *)

(** C8, as stated, fails: loading the identifier [new] into a store that
    holds a node leaves that node in place. *)
Lemma loadWorkflow_new_keeps_graph :
  ~ (forall (net : network) (w : world),
       let w' := snd (loadWorkflow net (VStr "new") w) in
       selectedWorkflowId (store w') = VStr "new"
       /\ nodes (store w') = [] /\ edges (store w') = []).
Proof.
  intros H.
  destruct (H sample_network (sample_world [query_node "hello"] []))
    as (_ & Hnodes & _).
  vm_compute in Hnodes. discriminate Hnodes.
Qed.

(** C8, amended: for an identifier that is falsy, [new] or starts with
    [temp_], [loadWorkflow] issues no request, binds the identifier and
    leaves nodes and edges as they were, returning [true]; for any other
    string, when the load request fails (no response, a status outside
    200..299 such as 404, or an unreadable body), it leaves the identifier
    bound to an empty node array and an empty edge array after the one load
    request, returning [true] for 404 and [false] otherwise. *)
Theorem loadWorkflow_new_or_unavailable (net : network) (w : world) :
  (forall workflowId,
     not_fetched workflowId = true ->
     let run := loadWorkflow net workflowId w in
     fst run = Returned true
     /\ selectedWorkflowId (store (snd run)) = workflowId
     /\ nodes (store (snd run)) = nodes (store w)
     /\ edges (store (snd run)) = edges (store w)
     /\ sent (snd run) = sent w)
  /\ (forall s,
        not_fetched (VStr s) = false ->
        unavailable (on_load net s) ->
        let run := loadWorkflow net (VStr s) w in
        fst run = Returned (not_found (on_load net s))
        /\ selectedWorkflowId (store (snd run)) = VStr s
        /\ nodes (store (snd run)) = []
        /\ edges (store (snd run)) = []
        /\ sent (snd run) = (sent w ++ [GetWorkflow s])%list).
Proof.
  split.
  - intros workflowId Hskip. unfold not_fetched in Hskip.
    unfold loadWorkflow, try_catch, bind, set, ret, startsWith_temp.
    destruct (negb (truthy workflowId) || is_str workflowId "new") eqn:E;
      simpl; [repeat split|].
    simpl in Hskip. destruct workflowId; try discriminate Hskip.
    unfold ret. rewrite Hskip. simpl. repeat split.
  - intros s Hfetch Hfail. unfold not_fetched in Hfetch.
    apply orb_false_iff in Hfetch as [Hnew Htemp].
    unfold loadWorkflow, try_catch, bind, set, ret, throw, startsWith_temp,
      fetch, issue, body.
    rewrite Hnew, Htemp. simpl.
    destruct (on_load net s) as [m|res]; simpl in *; [repeat split|].
    destruct (ok res) eqn:Hok; simpl.
    + destruct Hfail as [Hfail|[m Hm]]; [discriminate|].
      rewrite Hm. simpl. repeat split.
    + destruct (status res =? 404)%Z; simpl; repeat split.
Qed.

(** Witness for C8: an identifier the service answers with 404. *)
Lemma loadWorkflow_new_or_unavailable_witness :
  nodes (store (snd (loadWorkflow missing_network (VStr "wf2")
                       (sample_world [query_node "hello"] []))))
  = [].
Proof.
  apply (proj2 (loadWorkflow_new_or_unavailable missing_network
                  (sample_world [query_node "hello"] []))
           "wf2" eq_refl (or_introl eq_refl)).
Defined.

(** ** Round trip through the wire form *)











(** A service type goes to the editor and back unchanged. *)
Lemma service_type_round_trip (v : value) :
  service_type v = true ->
  convertNodeType (convertBackendNodeType v) = v
  /\ truthy (convertBackendNodeType v) = true
  /\ truthy v = true /\ on_wire v = v.
Proof.
  destruct v as [| | | |t| |]; try discriminate. unfold service_type.
  intros H. apply andb_true_iff in H as [H Hinh].
  apply andb_true_iff in H as [Hne Hfront].
  apply negb_true_iff in Hinh.
  unfold convertBackendNodeType, lookup_or_self, table_lookup.
  destruct (find (fun kv => fst kv =? t) backend_to_frontend) as [kv|] eqn:Hb.
  - apply find_some in Hb as [Hin Hkey]. apply String.eqb_eq in Hkey.
    subst t. unfold backend_to_frontend in Hin.
    repeat (destruct Hin as [<-|Hin]; [repeat split|]); contradiction.
  - unfold or_else. rewrite Hinh.
    unfold convertNodeType, lookup_or_self, table_lookup.
    revert Hfront.
    destruct (find (fun kv => fst kv =? t) frontend_to_backend);
      [discriminate|intros _].
    unfold or_else. rewrite Hinh. unfold truthy. auto.
Qed.





(** *** Dictionaries built entry by entry *)





(** Ids that are array indices are sent in ascending order, before the
    others. *)
Example nodesToDict_index_ids_first :
  map fst (nodesToDict [llm_node "q1" "k"; llm_node "2" "k"; llm_node "1" "k"])
  = ["1"; "2"; "q1"].
Proof. reflexivity. Qed.

(** A node whose id is [__proto__] is not sent. *)
Example nodesToDict_proto_id_dropped :
  map fst (nodesToDict [llm_node "q1" "k"; llm_node "__proto__" "k"])
  = ["q1"].
Proof. reflexivity. Qed.




(** * Further properties *)

(** ** Type names *)

(** An editor type goes to the service and back unchanged. *)
Lemma editor_type_round_trip (v : value) :
  editor_type v = true ->
  convertBackendNodeType (convertNodeType v) = v
  /\ truthy (convertNodeType v) = true
  /\ truthy v = true /\ is_json (convertNodeType v) = true.
Proof.
  destruct v as [| | | |t| |]; try discriminate. unfold editor_type.
  intros H. apply andb_true_iff in H as [H Hinh].
  apply andb_true_iff in H as [Hne Hback].
  apply negb_true_iff in Hinh.
  unfold convertNodeType, lookup_or_self, table_lookup.
  destruct (find (fun kv => fst kv =? t) frontend_to_backend) as [kv|] eqn:Hf.
  - apply find_some in Hf as [Hin Hkey]. apply String.eqb_eq in Hkey.
    subst t. unfold frontend_to_backend in Hin.
    repeat (destruct Hin as [<-|Hin]; [repeat split|]); contradiction.
  - unfold or_else. rewrite Hinh.
    unfold convertBackendNodeType, lookup_or_self, table_lookup.
    revert Hback.
    destruct (find (fun kv => fst kv =? t) backend_to_frontend);
      [discriminate|intros _].
    unfold or_else. rewrite Hinh. unfold truthy. auto.
Qed.

(** X1: the two type tables are inverse to each other: an editor type comes
    back unchanged from the service type it is converted to, a service type
    comes back unchanged from the editor type it is converted to, and the
    five pairs of names are exchanged by the two conversions. *)
Theorem node_type_conversions_inverse :
  (forall v, editor_type v = true ->
             convertBackendNodeType (convertNodeType v) = v)
  /\ (forall v, service_type v = true ->
                convertNodeType (convertBackendNodeType v) = v)
  /\ (forall kv, In kv frontend_to_backend ->
                 convertNodeType (VStr (fst kv)) = VStr (snd kv)
                 /\ convertBackendNodeType (VStr (snd kv)) = VStr (fst kv)
                 /\ editor_type (VStr (fst kv)) = true
                 /\ service_type (VStr (snd kv)) = true).
Proof.
  split; [|split].
  - intros v H. now apply editor_type_round_trip.
  - intros v H. now apply service_type_round_trip.
  - intros kv Hin. unfold frontend_to_backend in Hin.
    repeat (destruct Hin as [<-|Hin]; [repeat split|]); contradiction.
Qed.

(** ** Edge labels *)

(** X2: the label computed for a connection is [Unknown] exactly when its
    source or its target is the id of no node; otherwise it is one of the six
    labels of the table. *)
Theorem determineEdgeName_unknown_iff (c : connection) (ns : list node) :
  (determineEdgeName c ns = "Unknown" <->
   find_node (c_source c) ns = None \/ find_node (c_target c) ns = None)
  /\ In (determineEdgeName c ns)
        [ "Unknown"; "Query"; "Query Intake"; "Context"; "Answer";
          "Final Output"; "Connection" ].
Proof.
  unfold determineEdgeName.
  destruct (find_node (c_source c) ns) as [sourceNode|];
    [destruct (find_node (c_target c) ns) as [targetNode|]|].
  - repeat match goal with
           | |- context [if ?b then _ else _] => destruct b
           end;
      (split; [split; [discriminate | intros [H|H]; discriminate H]
              | simpl; tauto]).
  - split; [split; auto | simpl; tauto].
  - split; [split; auto | simpl; tauto].
Qed.

(** ** Connecting twice *)

Lemma strict_eq_textual_refl (v : value) :
  textual v = true -> strict_eq v v = true \/ truthy v = false.
Proof.
  destruct v; try discriminate; simpl; auto.
  left. apply String.eqb_refl.
Qed.

Lemma same_handle_textual_refl (v : value) :
  textual v = true -> same_handle v v = true.
Proof.
  unfold same_handle. destruct v; try discriminate; simpl; auto.
  now rewrite String.eqb_refl.
Qed.

(** X3: connecting the same two ports a second time adds nothing: after
    [onConnect] on a connection whose endpoints and handles are strings or
    [null], a second [onConnect] on the same connection, whatever the time,
    leaves the edge array as the first left it. *)
Theorem onConnect_twice_adds_once (t1 t2 : Z) (c : connection) (st : state) :
  textual (c_source c) = true -> textual (c_target c) = true ->
  textual (c_sourceHandle c) = true -> textual (c_targetHandle c) = true ->
  edges (onConnect t2 c (onConnect t1 c st)) = edges (onConnect t1 c st).
Proof.
  intros Hs Ht Hsh Hth. unfold onConnect. cbn [nodes edges with_edges].
  set (name := determineEdgeName c (nodes st)).
  unfold addEdge at 2. cbn [e_source e_target new_edge].
  destruct (negb (truthy (c_source c)) || negb (truthy (c_target c))) eqn:Hf.
  - unfold addEdge. cbn [e_source e_target new_edge]. now rewrite Hf.
  - apply orb_false_iff in Hf as [Hts Htt].
    apply negb_false_iff in Hts, Htt.
    assert (Hsame : forall es,
              connectionExists (new_edge t2 c name) es
              = connectionExists (new_edge t1 c name) es) by reflexivity.
    unfold addEdge. cbn [e_source e_target new_edge].
    rewrite Hts, Htt. cbn [negb orb].
    destruct (connectionExists (new_edge t1 c name) (edges st)) eqn:He.
    + now rewrite Hsame, He.
    + rewrite Hsame. unfold connectionExists at 1.
      rewrite existsb_app. cbn [existsb e_source e_target e_sourceHandle
                                  e_targetHandle new_edge].
      destruct (strict_eq_textual_refl _ Hs) as [-> | E]; [|congruence].
      destruct (strict_eq_textual_refl _ Ht) as [-> | E]; [|congruence].
      rewrite !same_handle_textual_refl by assumption.
      cbn [andb orb]. now rewrite orb_true_r.
Qed.

(** Witness for X3: the second connection of a query node to a language
    model is dropped. *)
Lemma onConnect_twice_adds_once_witness :
  edges (onConnect 2 (plain_connection "q1" "l1")
           (onConnect 1 (plain_connection "q1" "l1")
              (sample_state [query_node "hello"; llm_node "l1" "sk-1"] [])))
  = [new_edge 1 (plain_connection "q1" "l1") "Query"].
Proof.
  rewrite (onConnect_twice_adds_once 1 2 (plain_connection "q1" "l1")
             (sample_state [query_node "hello"; llm_node "l1" "sk-1"] [])
             eq_refl eq_refl eq_refl eq_refl).
  reflexivity.
Defined.

(** ** Referential integrity *)

Lemma found_find_node (v : value) (ns : list node) :
  found (find_node v ns) = true <->
  exists n, In n ns /\ is_str v (n_id n) = true.
Proof.
  unfold find_node. destruct (find _ ns) as [n|] eqn:Hf; simpl.
  - apply find_some in Hf. split; eauto.
  - split; [discriminate|]. intros (n & Hin & Hn).
    now rewrite (find_none _ _ Hf n Hin) in Hn.
Qed.

Lemma is_str_inj (v : value) (a b : string) :
  is_str v a = true -> is_str v b = true -> a = b.
Proof.
  destruct v; try discriminate. simpl. intros Ha Hb.
  apply String.eqb_eq in Ha, Hb. congruence.
Qed.

Lemma referential_iff (ns : list node) (es : list edge) :
  referential ns es = true <->
  forall e, In e es ->
            (exists n, In n ns /\ is_str (e_source e) (n_id n) = true)
            /\ (exists n, In n ns /\ is_str (e_target e) (n_id n) = true).
Proof.
  unfold referential. rewrite forallb_forall.
  split; intros H e He; specialize (H e He).
  - apply andb_true_iff in H. now rewrite !found_find_node in H.
  - apply andb_true_iff. now rewrite !found_find_node.
Qed.

(** X4: referential integrity is an invariant of the store operations that
    name existing nodes: if every edge starts and ends at a node, this still
    holds after [removeNode], [removeEdge], [addNode] and
    [updateNodeConfig] with any arguments, and after [onConnect] on a
    connection whose source and target are ids of nodes. *)
Theorem referential_integrity_kept (st : state) :
  referential (nodes st) (edges st) = true ->
  (forall X, let st' := removeNode X st in
             referential (nodes st') (edges st') = true)
  /\ (forall E, let st' := removeEdge E st in
                referential (nodes st') (edges st') = true)
  /\ (forall n, let st' := addNode n st in
                referential (nodes st') (edges st') = true)
  /\ (forall id newConfig,
        let st' := updateNodeConfig id newConfig st in
        referential (nodes st') (edges st') = true)
  /\ (forall now c,
        found (find_node (c_source c) (nodes st)) = true ->
        found (find_node (c_target c) (nodes st)) = true ->
        let st' := onConnect now c st in
        referential (nodes st') (edges st') = true).
Proof.
  intros Href. rewrite referential_iff in Href.
  split; [|split; [|split; [|split]]].
  - intros X. simpl. apply referential_iff. intros e He.
    apply filter_In in He as [He Hx]. apply andb_true_iff in Hx as [Hs Ht].
    apply negb_true_iff in Hs, Ht.
    destruct (Href e He) as [(a & Ha & Hsa) (b & Hb & Htb)].
    split; [exists a | exists b]; (split; [|assumption]);
      apply filter_In; (split; [assumption|]);
      apply negb_true_iff; apply String.eqb_neq; intros Heq; subst X;
      congruence.
  - intros E. simpl. apply referential_iff. intros e He.
    apply filter_In in He as [He _]. auto.
  - intros n. simpl. apply referential_iff. intros e He.
    destruct (Href e He) as [(a & Ha & Hsa) (b & Hb & Htb)].
    split; [exists a | exists b]; (split; [|assumption]);
      apply in_or_app; now left.
  - intros id newConfig. simpl. apply referential_iff. intros e He.
    destruct (Href e He) as [(a & Ha & Hsa) (b & Hb & Htb)].
    split;
      [exists (if n_id a =? id then merge_config newConfig a else a)
      |exists (if n_id b =? id then merge_config newConfig b else b)];
      (split; [apply in_map_iff; eauto|]).
    + now destruct (n_id a =? id).
    + now destruct (n_id b =? id).
  - intros now c Hs Ht. simpl. apply referential_iff. intros e He.
    unfold addEdge in He.
    destruct (_ || _) in He; [now apply Href|].
    destruct (connectionExists _ _) in He; [now apply Href|].
    apply in_app_or in He as [He|[<-|[]]]; [now apply Href|].
    simpl. now rewrite <- !found_find_node.
Qed.

(** Witness for X4: removing the language model of a chain leaves no edge
    without its node. *)
Lemma referential_integrity_kept_witness :
  let st' := removeNode "l1" chain_state in
  referential (nodes st') (edges st') = true.
Proof.
  apply (proj1 (referential_integrity_kept chain_state eq_refl) "l1").
Defined.

(** ** Removing nodes and edges *)

Lemma filter_comm {A : Type} (f g : A -> bool) (l : list A) :
  filter f (filter g l) = filter g (filter f l).
Proof.
  induction l as [|a l IH]; simpl; auto.
  destruct (f a) eqn:Hf, (g a) eqn:Hg; simpl; rewrite ?Hf, ?Hg, IH; auto.
Qed.

Lemma filter_idem {A : Type} (f : A -> bool) (l : list A) :
  filter f (filter f l) = filter f l.
Proof.
  induction l as [|a l IH]; simpl; auto.
  destruct (f a) eqn:Hf; simpl; rewrite ?Hf, IH; auto.
Qed.

(** X5: removals can be done in any order and repeated without effect:
    [removeNode] commutes with [removeNode] and with [removeEdge],
    [removeEdge] commutes with [removeEdge], and removing the same node or
    the same edge twice is the same as removing it once. *)
Theorem removals_commute (X Y E F : string) (st : state) :
  removeNode X (removeNode Y st) = removeNode Y (removeNode X st)
  /\ removeNode X (removeEdge E st) = removeEdge E (removeNode X st)
  /\ removeEdge E (removeEdge F st) = removeEdge F (removeEdge E st)
  /\ removeNode X (removeNode X st) = removeNode X st
  /\ removeEdge E (removeEdge E st) = removeEdge E st.
Proof.
  unfold removeNode, removeEdge, with_edges, with_nodes. simpl.
  repeat split; f_equal;
    first [apply filter_comm | apply filter_idem | reflexivity].
Qed.

(** ** Deleting the selection *)

Lemma fold_removeNode (l : list node) (st : state) :
  let st' := fold_left (fun s m => removeNode (n_id m) s) l st in
  (forall n, In n (nodes st') <->
             In n (nodes st) /\ forall m, In m l -> n_id n <> n_id m)
  /\ (forall e, In e (edges st') <->
                In e (edges st)
                /\ forall m, In m l -> touches (n_id m) e = false).
Proof.
  revert st. induction l as [|a l IH]; intros st; simpl.
  - split; intros x; tauto.
  - destruct (IH (removeNode (n_id a) st)) as [Hn He]. split.
    + intros n. rewrite Hn. simpl.
      rewrite filter_In, negb_true_iff, String.eqb_neq.
      split.
      * intros [[Hin Ha] Hl]. split; [assumption|].
        intros m [<-|Hm]; auto.
      * intros [Hin Hl]. repeat split; auto.
    + intros e. rewrite He. simpl.
      rewrite filter_In, <- negb_orb, negb_true_iff.
      fold (touches (n_id a) e).
      split.
      * intros [[Hin Ha] Hl]. split; [assumption|].
        intros m [<-|Hm]; auto.
      * intros [Hin Hl]. repeat split; auto.
Qed.

Lemma fold_removeEdge (l : list edge) (st : state) :
  let st' := fold_left (fun s x => removeEdge (e_id x) s) l st in
  nodes st' = nodes st
  /\ (forall e, In e (edges st') <->
                In e (edges st) /\ forall x, In x l -> e_id e <> e_id x).
Proof.
  revert st. induction l as [|a l IH]; intros st; simpl.
  - split; [reflexivity | intros x; tauto].
  - destruct (IH (removeEdge (e_id a) st)) as [Hn He]. split.
    + now rewrite Hn.
    + intros e. rewrite He. simpl.
      rewrite filter_In, negb_true_iff, String.eqb_neq.
      split.
      * intros [[Hin Ha] Hl]. split; [assumption|].
        intros m [<-|Hm]; auto.
      * intros [Hin Hl]. repeat split; auto.
Qed.

(** X6: pressing [Delete] keeps exactly the nodes whose id is the id of no
    selected node, and exactly the edges that touch no selected node and whose
    id is the id of no selected edge; no selected node and no selected edge is
    left, and if every edge started and ended at a node before, this still
    holds afterwards. *)
Theorem deleteSelection_removes_selection (edge_selected : edge -> bool)
  (st : state) :
  let st' := deleteSelection edge_selected st in
  (forall n, In n (nodes st') <->
     In n (nodes st)
     /\ forall m, In m (nodes st) -> node_selected m = true ->
                  n_id n <> n_id m)
  /\ (forall e, In e (edges st') <->
        In e (edges st)
        /\ (forall m, In m (nodes st) -> node_selected m = true ->
                      touches (n_id m) e = false)
        /\ (forall x, In x (edges st) -> edge_selected x = true ->
                      e_id e <> e_id x))
  /\ (forall n, In n (nodes st') -> node_selected n = false)
  /\ (forall e, In e (edges st') -> edge_selected e = false)
  /\ (referential (nodes st) (edges st) = true ->
      referential (nodes st') (edges st') = true).
Proof.
  unfold deleteSelection.
  set (selectedNodes := filter node_selected (nodes st)).
  set (selectedEdges := filter edge_selected (edges st)).
  destruct (fold_removeNode selectedNodes st) as [Hn1 He1].
  destruct (fold_removeEdge selectedEdges
              (fold_left (fun s m => removeNode (n_id m) s) selectedNodes st))
    as [Hn2 He2].
  cbv zeta.
  assert (Hnodes : forall n,
    In n (nodes (fold_left (fun s x => removeEdge (e_id x) s) selectedEdges
                   (fold_left (fun s m => removeNode (n_id m) s)
                      selectedNodes st))) <->
    In n (nodes st)
    /\ forall m, In m (nodes st) -> node_selected m = true ->
                 n_id n <> n_id m).
  { intros n. rewrite Hn2, Hn1. unfold selectedNodes.
    split; intros [Hin H]; (split; [assumption|]).
    - intros m Hm Hsel. apply H. now apply filter_In.
    - intros m Hm. apply filter_In in Hm as [Hm Hsel]. auto. }
  assert (Hedges : forall e,
    In e (edges (fold_left (fun s x => removeEdge (e_id x) s) selectedEdges
                   (fold_left (fun s m => removeNode (n_id m) s)
                      selectedNodes st))) <->
    In e (edges st)
    /\ (forall m, In m (nodes st) -> node_selected m = true ->
                  touches (n_id m) e = false)
    /\ (forall x, In x (edges st) -> edge_selected x = true ->
                  e_id e <> e_id x)).
  { intros e. rewrite He2, He1. unfold selectedNodes, selectedEdges.
    split.
    - intros [[Hin Hm] Hx]. split; [assumption|]. split.
      + intros m Hin' Hsel. apply Hm. now apply filter_In.
      + intros x Hin' Hsel. apply Hx. now apply filter_In.
    - intros [Hin [Hm Hx]]. repeat split; auto.
      + intros m Hm'. apply filter_In in Hm' as [? ?]. auto.
      + intros x Hx'. apply filter_In in Hx' as [? ?]. auto. }
  split; [exact Hnodes|]. split; [exact Hedges|]. split; [|split].
  - intros n Hin. apply Hnodes in Hin as [Hin H].
    destruct (node_selected n) eqn:E; auto. now elim (H n Hin E).
  - intros e Hin. apply Hedges in Hin as [Hin [_ H]].
    destruct (edge_selected e) eqn:E; auto. now elim (H e Hin E).
  - intros Href. rewrite referential_iff in Href. apply referential_iff.
    intros e He. apply Hedges in He as [He [Hm _]].
    destruct (Href e He) as [(a & Ha & Hsa) (b & Hb & Htb)].
    split; [exists a | exists b]; (split; [|assumption]);
      apply Hnodes; (split; [assumption|]);
      intros m Hin Hsel Heq; specialize (Hm m Hin Hsel);
      unfold touches in Hm; apply orb_false_iff in Hm as [Hms Hmt];
      rewrite <- Heq in *; congruence.
Qed.

(** ** Adding a node *)

Lemma config_nodeWithDefaults (n : node) :
  config (nodeWithDefaults n)
  = assign (initialConfig (data_type n)) (config n).
Proof. unfold config, nodeWithDefaults. simpl. now rewrite get_set_same. Qed.

(** X7: [addNode] appends one node and touches nothing else; the new node
    keeps the id, type and position given, and in its config every key the
    caller gave holds the caller's value while every other key holds the
    default of the node's type; its name is the one given, or the one of
    its type when none is given. *)
Theorem addNode_fills_defaults (n : node) (st : state) :
  let st' := addNode n st in
  let n' := nodeWithDefaults n in
  nodes st' = (nodes st ++ [n'])%list
  /\ edges st' = edges st
  /\ selectedWorkflowId st' = selectedWorkflowId st
  /\ n_id n' = n_id n /\ n_type n' = n_type n
  /\ n_position n' = n_position n /\ n_other n' = n_other n
  /\ (forall k, has_prop k (config n) = false ->
        get_prop k (config n') = get_prop k (initialConfig (data_type n)))
  /\ (NoDup (map fst (config n)) ->
      forall k, has_prop k (config n) = true ->
        get_prop k (config n') = get_prop k (config n))
  /\ get_prop "name" (n_data n')
     = or_else (get_prop "name" (n_data n)) (getNodeName (data_type n))
  /\ (forall k, k <> "name" -> k <> "config" ->
        get_prop k (n_data n') = get_prop k (n_data n)).
Proof.
  simpl. repeat (split; [reflexivity|]). split; [|split; [|split]].
  - intros k Hk. rewrite config_nodeWithDefaults. now apply get_assign_other.
  - intros Hnd k Hk. rewrite config_nodeWithDefaults.
    now apply get_assign_named.
  - rewrite get_set_other by discriminate. apply get_set_same.
  - intros k Hname Hconfig. now rewrite !get_set_other.
Qed.

(** ** Offering the web search component *)

Lemma is_str_true (v : value) (s : string) :
  is_str v s = true <-> v = VStr s.
Proof.
  destruct v; simpl; try (split; [discriminate | intros [=]]).
  rewrite String.eqb_eq. split; [now intros -> | now intros [= ->]].
Qed.

(** X9: the web search component is offered exactly when some edge joins a
    node of type [userQueryNode] and a node of type [llmNode], in one
    direction or the other. *)
Theorem isWebSearchVisible_iff (ns : list node) (es : list edge) :
  isWebSearchVisible ns es = true <->
  exists uq llm e,
    In uq ns /\ n_type uq = VStr "userQueryNode"
    /\ In llm ns /\ n_type llm = VStr "llmNode"
    /\ In e es /\ joins uq llm e.
Proof.
  unfold isWebSearchVisible, joins. rewrite existsb_exists. split.
  - intros (uq & Huq & H). apply existsb_exists in H as (llm & Hllm & H).
    apply existsb_exists in H as (e & He & H).
    apply filter_In in Huq as [Huq Htu], Hllm as [Hllm Htl].
    exists uq, llm, e. rewrite is_str_true in Htu, Htl.
    repeat (split; [assumption|]).
    apply orb_true_iff in H as [H|H]; apply andb_true_iff in H as [H1 H2];
      rewrite is_str_true in H1, H2; auto.
  - intros (uq & llm & e & Huq & Htu & Hllm & Htl & He & H).
    exists uq. split; [apply filter_In; now rewrite is_str_true|].
    apply existsb_exists. exists llm.
    split; [apply filter_In; now rewrite is_str_true|].
    apply existsb_exists. exists e. split; [assumption|].
    destruct H as [[-> ->]|[-> ->]]; simpl; rewrite !String.eqb_refl;
      auto using orb_true_r.
Qed.

Lemma addEdge_has_connection (e : edge) (es : list edge) :
  truthy (e_source e) = true -> truthy (e_target e) = true ->
  exists el, In el (addEdge e es)
             /\ (strict_eq (e_source el) (e_source e) = true
                 \/ e_source el = e_source e)
             /\ (strict_eq (e_target el) (e_target e) = true
                 \/ e_target el = e_target e).
Proof.
  intros Hs Ht. unfold addEdge. rewrite Hs, Ht. cbn [negb orb].
  destruct (connectionExists e es) eqn:Hex.
  - apply existsb_exists in Hex as (el & Hin & H).
    apply andb_true_iff in H as [H _]. apply andb_true_iff in H as [H _].
    apply andb_true_iff in H as [H1 H2]. exists el. auto.
  - exists e. split; [apply in_or_app; right; now left | auto].
Qed.

Lemma strict_eq_str (v : value) (s : string) :
  strict_eq v (VStr s) = true -> v = VStr s.
Proof.
  destruct v; try discriminate. simpl. intros H.
  apply String.eqb_eq in H. now subst.
Qed.

(** A joining edge between a query node and a language model makes the web
    search component offered. *)
Lemma web_search_offered (ns : list node) (es : list edge) (uq llm : node)
  (e : edge) :
  In uq ns -> n_type uq = VStr "userQueryNode" ->
  In llm ns -> n_type llm = VStr "llmNode" ->
  In e es -> joins uq llm e ->
  isWebSearchVisible ns es = true.
Proof.
  intros Huq Htu Hllm Htl He H. unfold isWebSearchVisible.
  apply existsb_exists. exists uq.
  split; [apply filter_In; now rewrite is_str_true|].
  apply existsb_exists. exists llm.
  split; [apply filter_In; now rewrite is_str_true|].
  apply existsb_exists. exists e. split; [assumption|].
  destruct H as [[-> ->]|[-> ->]]; simpl; rewrite !String.eqb_refl;
    auto using orb_true_r.
Qed.

(** X10: connecting a node of type [userQueryNode] and a node of type
    [llmNode], in either direction, makes the web search component offered,
    whether the edge is added or an edge between the two was already
    there. *)
Theorem onConnect_offers_web_search (now : Z) (c : connection) (st : state)
  (uq llm : node) :
  In uq (nodes st) -> n_type uq = VStr "userQueryNode" ->
  In llm (nodes st) -> n_type llm = VStr "llmNode" ->
  n_id uq <> "" -> n_id llm <> "" ->
  (c_source c = VStr (n_id uq) /\ c_target c = VStr (n_id llm))
  \/ (c_source c = VStr (n_id llm) /\ c_target c = VStr (n_id uq)) ->
  let st' := onConnect now c st in
  isWebSearchVisible (nodes st') (edges st') = true.
Proof.
  intros Huq Htu Hllm Htl Hne1 Hne2 Hc. simpl.
  set (e := new_edge now c (determineEdgeName c (nodes st))).
  assert (Hts : truthy (e_source e) = true /\ truthy (e_target e) = true).
  { apply String.eqb_neq in Hne1, Hne2.
    destruct Hc as [[Hs Ht]|[Hs Ht]]; simpl; rewrite Hs, Ht; simpl;
      now rewrite Hne1, Hne2. }
  destruct Hts as [Hs Ht].
  destruct (addEdge_has_connection e (edges st) Hs Ht)
    as (el & Hin & Hes & Het).
  apply (web_search_offered _ _ uq llm el); auto.
  unfold joins. simpl in Hes, Het.
  destruct Hc as [[Hcs Hct]|[Hcs Hct]]; rewrite Hcs in Hes; rewrite Hct in Het;
    [left | right]; split;
    (destruct Hes as [Hes|Hes]; [now apply strict_eq_str | assumption])
    || (destruct Het as [Het|Het]; [now apply strict_eq_str | assumption]).
Qed.

(** Witness for X10: a query node is connected to a language model. *)
Lemma onConnect_offers_web_search_witness :
  let st' := onConnect 1 (plain_connection "q1" "l1")
               (sample_state [query_node "hello"; llm_node "l1" "sk-1"] []) in
  isWebSearchVisible (nodes st') (edges st') = true.
Proof.
  apply (onConnect_offers_web_search 1 (plain_connection "q1" "l1")
           (sample_state [query_node "hello"; llm_node "l1" "sk-1"] [])
           (query_node "hello") (llm_node "l1" "sk-1")).
  - simpl. auto.
  - reflexivity.
  - simpl. auto.
  - reflexivity.
  - discriminate.
  - discriminate.
  - left. split; reflexivity.
Defined.

(** ** Saving *)

(** The outcome of a successful save: the parsed body is returned after the
    one save request and the store is bound to the id the answer names. *)
Lemma saveWorkflow_rebinds (net : network) (w : world) (saveResult : value) :
  save_succeeds net w saveResult ->
  saveResult <> VUndef -> saveResult <> VNull ->
  let workflowId := selectedWorkflowId (store w) in
  saveWorkflow net w
  = (Returned saveResult,
     {| store := if truthy (opt_prop saveResult "stack_id")
                    && negb (strict_eq (opt_prop saveResult "stack_id")
                                       workflowId)
                 then setSelectedWorkflowId (opt_prop saveResult "stack_id")
                                            (store w)
                 else store w;
        sent := (sent w
                 ++ [PostWorkflow (build_payload workflowId (store w))])%list
     |}).
Proof.
  intros (Hid & res & Hsave & Hok & Hjson) Hundef Hnull. simpl.
  unfold saveWorkflow, bind, get, fetch, issue, throw, ret, body, member, set.
  simpl. rewrite Hid. simpl. rewrite Hsave. simpl. rewrite Hok. simpl.
  rewrite Hjson.
  destruct saveResult; try congruence; simpl;
    try match goal with
        | |- context [if ?c then _ else _] => destruct c
        end;
    reflexivity.
Qed.

(** X12: without a workflow id nothing is sent: when the selected workflow
    id is falsy, [saveWorkflow] throws [No workflow ID available],
    [saveAndExecuteWorkflow] returns the failure object carrying that text
    and the save button shows the failure banner with it, and in all three
    cases the store and the list of requests are as before. *)
Theorem nothing_sent_without_workflow_id (net : network) (w : world)
  (userQuery : value) (b : builder) :
  truthy (selectedWorkflowId (store w)) = false ->
  saveWorkflow net w = (Thrown "No workflow ID available", w)
  /\ saveAndExecuteWorkflow net userQuery w
     = (Returned (not_executed "No workflow ID available"), w)
  /\ handleSaveWorkflow net b w
     = ({| shown := {| isExecuting := isExecuting (shown b);
                       executionResult :=
                         save_failed_banner "No workflow ID available";
                       showResult := true |};
           isSaving := false |}, w).
Proof.
  intros Hid.
  assert (Hsave : saveWorkflow net w = (Thrown "No workflow ID available", w)).
  { unfold saveWorkflow, bind, get, throw. simpl. now rewrite Hid. }
  split; [assumption|]. split.
  - unfold saveAndExecuteWorkflow, try_catch, get, bind at 1, bind at 1.
    now rewrite Hsave.
  - unfold handleSaveWorkflow. now rewrite Hsave.
Qed.

(** Witness for X12: a store that was reset has no workflow id. *)
Lemma nothing_sent_without_workflow_id_witness :
  sent (snd (saveAndExecuteWorkflow sample_network (VStr "hello")
               {| store := resetWorkflowBuilder (sample_state [] []);
                  sent := [] |}))
  = [].
Proof.
  rewrite (proj1 (proj2 (nothing_sent_without_workflow_id sample_network
                           {| store := resetWorkflowBuilder
                                         (sample_state [] []);
                              sent := [] |}
                           (VStr "hello")
                           {| shown := {| isExecuting := false;
                                          executionResult := VNull;
                                          showResult := false |};
                              isSaving := false |}
                           eq_refl))).
  reflexivity.
Defined.

(** X13: a successful save binds the store to the id the service names:
    when the answer has status 200..299 and a JSON body other than [null]
    (a parsed body is never [undefined]), [saveWorkflow] returns that body after its one request, the selected
    workflow id becomes the [stack_id] of the body if that is truthy and
    differs from the id in use and stays as it was otherwise, and nodes and
    edges are untouched. *)
Theorem saveWorkflow_binds_returned_id (net : network) (w : world)
  (saveResult : value) :
  save_succeeds net w saveResult ->
  saveResult <> VUndef -> saveResult <> VNull ->
  let run := saveWorkflow net w in
  let workflowId := selectedWorkflowId (store w) in
  fst run = Returned saveResult
  /\ selectedWorkflowId (store (snd run)) = id_after_save workflowId saveResult
  /\ nodes (store (snd run)) = nodes (store w)
  /\ edges (store (snd run)) = edges (store w)
  /\ sent (snd run)
     = (sent w ++ [PostWorkflow (build_payload workflowId (store w))])%list.
Proof.
  intros Hsave Hundef Hnull. simpl.
  rewrite (saveWorkflow_rebinds net w saveResult Hsave Hundef Hnull).
  unfold id_after_save. simpl.
  destruct (truthy (opt_prop saveResult "stack_id")
            && negb (strict_eq (opt_prop saveResult "stack_id")
                               (selectedWorkflowId (store w))));
    repeat split.
Qed.

(** Witness for X13: the service files the workflow under another id. *)
Lemma saveWorkflow_binds_returned_id_witness :
  selectedWorkflowId
    (store (snd (saveWorkflow renaming_network
                   (sample_world [query_node "hello"] []))))
  = VStr "canonical-id".
Proof.
  apply (saveWorkflow_binds_returned_id renaming_network
           (sample_world [query_node "hello"] [])
           (VObj [("stack_id", VStr "canonical-id")])).
  - split; [reflexivity|]. eexists. repeat split; reflexivity.
  - discriminate.
  - discriminate.
Defined.

(** X11: the save button never leaves the page saving, never touches the
    running flag, the nodes or the edges, and issues exactly the requests of
    [saveWorkflow]; it shows the success banner when the save returns a
    truthy body, leaves the banner as it was when the body is falsy, and
    shows the failure banner carrying the error text when the save throws;
    every banner it shows has the type [save]. *)
Theorem handleSaveWorkflow_outcome (net : network) (b : builder) (w : world) :
  let r := handleSaveWorkflow net b w in
  isSaving (fst r) = false
  /\ isExecuting (shown (fst r)) = isExecuting (shown b)
  /\ snd r = snd (saveWorkflow net w)
  /\ nodes (store (snd r)) = nodes (store w)
  /\ edges (store (snd r)) = edges (store w)
  /\ match fst (saveWorkflow net w) with
     | Returned result =>
         if truthy result
         then executionResult (shown (fst r)) = saved_banner
              /\ showResult (shown (fst r)) = true
         else shown (fst r) = shown b
     | Thrown message =>
         executionResult (shown (fst r)) = save_failed_banner message
         /\ showResult (shown (fst r)) = true
     end
  /\ (shown (fst r) = shown b
      \/ opt_prop (executionResult (shown (fst r))) "type" = VStr "save").
Proof.
  destruct (saveWorkflow_graph net w) as [Hn He].
  unfold handleSaveWorkflow.
  destruct (saveWorkflow net w) as [[result|message] w1]; simpl in *.
  - destruct (truthy result); simpl; repeat split; auto.
  - repeat split; auto.
Qed.

(** ** Save and execute, continued *)

Lemma saveWorkflow_returns_with_id (net : network) (w w1 : world)
  (r : value) :
  saveWorkflow net w = (Returned r, w1) ->
  truthy (selectedWorkflowId (store w)) = true.
Proof.
  unfold saveWorkflow, bind, get, throw. simpl.
  destruct (truthy (selectedWorkflowId (store w))); [reflexivity|].
  discriminate.
Qed.

(** X14: the execution is requested for the id the store held before the
    save: after a successful save with a truthy body, whatever the execute
    endpoint answers, the requests issued are the save and then an execute
    request carrying the workflow id of the store on entry and the query
    given, even when the save has bound the store to another id. *)
Theorem saveAndExecuteWorkflow_executes_entry_id (net : network) (w : world)
  (userQuery saveResult : value) :
  save_succeeds net w saveResult ->
  truthy saveResult = true ->
  let run := saveAndExecuteWorkflow net userQuery w in
  let workflowId := selectedWorkflowId (store w) in
  sent (snd run)
  = (sent w ++ [PostWorkflow (build_payload workflowId (store w));
                PostExecute workflowId userQuery])%list
  /\ selectedWorkflowId (store (snd run))
     = id_after_save workflowId saveResult.
Proof.
  intros Hsave Htruthy. simpl.
  assert (Hundef : saveResult <> VUndef) by (intros ->; discriminate).
  assert (Hnull : saveResult <> VNull) by (intros ->; discriminate).
  pose proof (saveWorkflow_rebinds net w saveResult Hsave Hundef Hnull) as Hs.
  simpl in Hs. destruct Hsave as [Hid _].
  assert (Hrun : exists o st2,
            saveAndExecuteWorkflow net userQuery w
            = (o, {| store := st2;
                     sent := ((sent w
                               ++ [PostWorkflow
                                     (build_payload
                                        (selectedWorkflowId (store w))
                                        (store w))])
                              ++ [PostExecute (selectedWorkflowId (store w))
                                              userQuery])%list |})
            /\ selectedWorkflowId st2
               = id_after_save (selectedWorkflowId (store w)) saveResult).
  { unfold saveAndExecuteWorkflow, try_catch, get, bind at 1, bind at 1.
    rewrite Hs, Htruthy, Hid. unfold id_after_save.
    unfold bind, fetch, issue, throw, ret, body, member, set. unfold bind.
    simpl.
    destruct (on_execute net _ _) as [m|res]; simpl;
      [do 2 eexists; split; [reflexivity | now destruct (_ && _)]|].
    destruct (ok res); simpl;
      [|do 2 eexists; split; [reflexivity | now destruct (_ && _)]].
    destruct (json res) as [m|executeResult]; simpl;
      [do 2 eexists; split; [reflexivity | now destruct (_ && _)]|].
    destruct executeResult; simpl;
      try (do 2 eexists; split; [reflexivity | now destruct (_ && _)]).
    destruct (truthy (get_prop "result" fields)); simpl;
      [|do 2 eexists; split; [reflexivity | now destruct (_ && _)]].
    destruct (find_output (nodes (store w))); simpl;
      (do 2 eexists; split; [reflexivity | now destruct (_ && _)]). }
  destruct Hrun as (o & st2 & -> & Hid2). simpl.
  now rewrite <- app_assoc.
Qed.

(** Witness for X14: the save binds the store to [canonical-id] and the
    execution is requested for [wf1]. *)
Lemma saveAndExecuteWorkflow_executes_entry_id_witness :
  let run := saveAndExecuteWorkflow renaming_network (VStr "hello")
               (sample_world [query_node "hello"] []) in
  last (sent (snd run)) (GetWorkflow "") = PostExecute (VStr "wf1") (VStr "hello")
  /\ selectedWorkflowId (store (snd run)) = VStr "canonical-id".
Proof.
  destruct (saveAndExecuteWorkflow_executes_entry_id renaming_network
              (sample_world [query_node "hello"] []) (VStr "hello")
              (VObj [("stack_id", VStr "canonical-id")])) as [Hsent Hid].
  - split; [reflexivity|]. eexists. repeat split; reflexivity.
  - reflexivity.
  - cbv zeta. rewrite Hsent, Hid. split; reflexivity.
Defined.

(** X16: an execution that fails after a successful save is reported as a
    failure whose error is the text of the execute error (for a status
    outside 200..299, [Failed to execute workflow:] followed by the status
    and the body); both requests have been issued, and nodes and edges are as
    they were. *)
Theorem saveAndExecuteWorkflow_execute_failure (net : network) (w : world)
  (userQuery saveResult : value) :
  save_succeeds net w saveResult ->
  truthy saveResult = true ->
  failed (on_execute net (selectedWorkflowId (store w)) userQuery) ->
  let run := saveAndExecuteWorkflow net userQuery w in
  let workflowId := selectedWorkflowId (store w) in
  fst run
  = Returned (not_executed
                (execute_error (on_execute net workflowId userQuery)))
  /\ sent (snd run)
     = (sent w ++ [PostWorkflow (build_payload workflowId (store w));
                   PostExecute workflowId userQuery])%list
  /\ nodes (store (snd run)) = nodes (store w)
  /\ edges (store (snd run)) = edges (store w).
Proof.
  intros Hsave Htruthy Hfail. simpl.
  assert (Hundef : saveResult <> VUndef) by (intros ->; discriminate).
  assert (Hnull : saveResult <> VNull) by (intros ->; discriminate).
  pose proof (saveWorkflow_rebinds net w saveResult Hsave Hundef Hnull) as Hs.
  simpl in Hs. destruct Hsave as [Hid _].
  assert (Hrun : exists st2,
            saveAndExecuteWorkflow net userQuery w
            = (Returned
                 (not_executed
                    (execute_error
                       (on_execute net (selectedWorkflowId (store w))
                                   userQuery))),
               {| store := st2;
                  sent := ((sent w
                            ++ [PostWorkflow
                                  (build_payload
                                     (selectedWorkflowId (store w))
                                     (store w))])
                           ++ [PostExecute (selectedWorkflowId (store w))
                                           userQuery])%list |})
            /\ nodes st2 = nodes (store w) /\ edges st2 = edges (store w)).
  { unfold saveAndExecuteWorkflow, try_catch, get, bind at 1, bind at 1.
    rewrite Hs, Htruthy, Hid.
    unfold bind, fetch, issue, throw, ret, body, member, set. unfold bind.
    simpl.
    destruct (on_execute net _ _) as [m|res]; simpl in *.
    - eexists. split; [reflexivity|]. now destruct (_ && _).
    - rewrite Hfail. simpl. eexists. split; [reflexivity|].
      now destruct (_ && _). }
  destruct Hrun as (st2 & -> & Hn & He). simpl.
  now rewrite <- app_assoc.
Qed.

(** Witness for X16: the service stores the workflow and answers the
    execution with status 500. *)
Lemma saveAndExecuteWorkflow_execute_failure_witness :
  fst (saveAndExecuteWorkflow renaming_network (VStr "hello")
         (sample_world [query_node "hello"] []))
  = Returned (not_executed "Failed to execute workflow: 500 boom").
Proof.
  apply (saveAndExecuteWorkflow_execute_failure renaming_network
           (sample_world [query_node "hello"] []) (VStr "hello")
           (VObj [("stack_id", VStr "canonical-id")])).
  - split; [reflexivity|]. eexists. repeat split; reflexivity.
  - reflexivity.
  - reflexivity.
Defined.

(** X15: [saveAndExecuteWorkflow] never throws and never executes without
    saving: whatever the store holds and whatever the service answers, it
    returns either the success object or a failure object whose message is
    the error text behind [Failed to save and execute workflow:], and the
    requests it has issued are none, the save alone, or the save followed by
    one execute request. *)
Theorem saveAndExecuteWorkflow_always_returns (net : network) (w : world)
  (userQuery : value) :
  let run := saveAndExecuteWorkflow net userQuery w in
  let workflowId := selectedWorkflowId (store w) in
  let save := PostWorkflow (build_payload workflowId (store w)) in
  ((exists saveResult executeResult,
      fst run = Returned (executed saveResult executeResult))
   \/ (exists message, fst run = Returned (not_executed message)))
  /\ (sent (snd run) = sent w
      \/ sent (snd run) = (sent w ++ [save])%list
      \/ sent (snd run)
         = (sent w ++ [save; PostExecute workflowId userQuery])%list)
  /\ ((forall saveResult executeResult,
         get_prop "success" (executed saveResult executeResult) = VBool true)
      /\ forall message,
           get_prop "success" (not_executed message) = VBool false
           /\ get_prop "message" (not_executed message)
              = VStr ("Failed to save and execute workflow: " ++ message)).
Proof.
  pose proof (saveWorkflow_sent net w) as Hsent.
  pose proof (saveWorkflow_returns_with_id net w) as Hid.
  cbv zeta. split; [|split; [|split; [now intros | now intros message]]].
  - unfold saveAndExecuteWorkflow, try_catch, get, bind, fetch, issue, throw,
      ret, body, member, set. unfold bind.
    destruct (saveWorkflow net w) as [[saveResult|e] w1]; simpl;
      [|right; eauto].
    destruct (truthy saveResult); simpl; [|right; eauto].
    destruct (truthy (selectedWorkflowId (store w))); simpl; [|right; eauto].
    destruct (on_execute net _ _) as [m|res]; simpl; [right; eauto|].
    destruct (ok res); simpl; [|right; eauto].
    destruct (json res) as [m|executeResult]; simpl; [right; eauto|].
    destruct executeResult; simpl; try (right; eauto; fail);
      try (left; eauto; fail).
    destruct (truthy (get_prop "result" fields)); simpl; [|left; eauto].
    destruct (find_output (nodes (store w))); simpl; left; eauto.
  - unfold saveAndExecuteWorkflow, try_catch, get, bind, fetch, issue, throw,
      ret, body, member, set. unfold bind.
    destruct (saveWorkflow net w) as [[saveResult|e] w1] eqn:Hs;
      simpl in Hsent |- *.
    + rewrite (Hid w1 saveResult eq_refl) in *.
      destruct (truthy saveResult); simpl; [|auto].
      assert (Hboth : (sent w1
                       ++ [PostExecute (selectedWorkflowId (store w))
                                       userQuery])%list
                      = (sent w
                         ++ [PostWorkflow
                               (build_payload (selectedWorkflowId (store w))
                                              (store w));
                             PostExecute (selectedWorkflowId (store w))
                                         userQuery])%list).
      { rewrite Hsent, <- app_assoc. reflexivity. }
      destruct (on_execute net _ _) as [m|res]; simpl; [auto|].
      destruct (ok res); simpl; [|auto].
      destruct (json res) as [m|executeResult]; simpl; [auto|].
      destruct executeResult; simpl; auto.
      destruct (truthy (get_prop "result" fields)); simpl; [|auto].
      destruct (find_output (nodes (store w))); simpl; auto.
    + destruct (truthy (selectedWorkflowId (store w))); auto.
Qed.

(** ** Loading *)

(** X17: a successful load replaces the graph: for an identifier that is
    fetched and answered with a status in 200..299 and a readable body,
    [loadWorkflow] returns [true] after its one request, binds the
    [stack_id] of the body (the requested id when the body names none),
    installs the nodes and edges converted from the two dictionaries of the
    body, whatever the store held before, and installs the empty array for a
    dictionary that is missing. *)
Theorem loadWorkflow_installs_graph (net : network) (w : world) (s : string)
  (res : response workflow_data) (d : workflow_data) :
  not_fetched (VStr s) = false ->
  on_load net s = Resolved res -> ok res = true -> json res = Json d ->
  let run := loadWorkflow net (VStr s) w in
  fst run = Returned true
  /\ sent (snd run) = (sent w ++ [GetWorkflow s])%list
  /\ selectedWorkflowId (store (snd run)) = or_else (data_stack_id d) (VStr s)
  /\ nodes (store (snd run)) = map node_of_wire
                                   (match data_nodes d with
                                    | Some x => dict_values x
                                    | None => []
                                    end)
  /\ edges (store (snd run)) = map edge_of_wire
                                   (match data_edges d with
                                    | Some x => dict_values x
                                    | None => []
                                    end)
  /\ workflowName (store (snd run)) = or_else (data_name d) (VStr "")
  /\ workflowDescription (store (snd run))
     = or_else (data_description d) (VStr "").
Proof.
  intros Hfetch Hload Hok Hjson. unfold not_fetched in Hfetch.
  apply orb_false_iff in Hfetch as [Hnew Htemp].
  assert (Hrun : loadWorkflow net (VStr s) w
                 = (Returned true,
                    {| store := loaded_workflow s d (store w);
                       sent := (sent w ++ [GetWorkflow s])%list |})).
  { unfold loadWorkflow, try_catch, bind, set, ret, throw, startsWith_temp,
      fetch, issue, body.
    rewrite Hnew, Htemp. simpl. rewrite Hload. simpl. rewrite Hok. simpl.
    now rewrite Hjson. }
  simpl. rewrite Hrun. simpl. unfold dictToNodes, dictToEdges.
  destruct (data_nodes d), (data_edges d); repeat split.
Qed.

(** Witness for X17: the service returns a graph of one node and no edge
    dictionary. *)
Lemma loadWorkflow_installs_graph_witness :
  let run := loadWorkflow serving_network (VStr "wf2")
               (sample_world [llm_node "l1" "sk-1"]
                             [sample_edge "e1" "q1" "l1"]) in
  nodes (store (snd run)) = [query_node "hello"]
  /\ edges (store (snd run)) = [].
Proof.
  destruct (loadWorkflow_installs_graph serving_network
              (sample_world [llm_node "l1" "sk-1"]
                            [sample_edge "e1" "q1" "l1"])
              "wf2" _ _ eq_refl eq_refl eq_refl eq_refl)
    as (_ & _ & _ & Hn & He & _).
  split; [exact Hn | exact He].
Defined.

(** ** What is saved is what is loaded *)








(** ** The node dictionary *)

Lemma dict_has_true {A : Type} (k : string) (d : dict A) :
  dict_has k d = true -> In k (map fst d).
Proof.
  unfold dict_has. intros E.
  apply existsb_exists in E as (x & Hx & Heq).
  apply String.eqb_eq in Heq. now subst.
Qed.

Lemma dict_replace_keys {A : Type} (k : string) (a : A) (d : dict A) :
  map fst (dict_replace k a d) = map fst d.
Proof.
  induction d as [|[k2 a2] r IH]; simpl; auto.
  destruct (k =? k2) eqn:E; simpl.
  - apply String.eqb_eq in E. now subst.
  - now rewrite IH.
Qed.

Lemma dict_replace_In {A : Type} (k k' : string) (a a' : A) (d : dict A) :
  In (k', a') (dict_replace k a d) -> (k', a') = (k, a) \/ In (k', a') d.
Proof.
  induction d as [|[k2 a2] r IH]; simpl; auto.
  destruct (k =? k2); simpl; intros [H|H]; auto.
  destruct (IH H); auto.
Qed.

Lemma dict_insert_index_split {A : Type} (n : N) (k : string) (a : A)
  (d : dict A) :
  exists d1 d2,
    d = (d1 ++ d2)%list /\ dict_insert_index n k a d = (d1 ++ (k, a) :: d2)%list.
Proof.
  induction d as [|[k2 a2] r (d1 & d2 & Hd & Hi)]; simpl.
  - exists [], []. auto.
  - destruct (array_index k2) as [m|].
    + destruct (m <? n)%N.
      * exists ((k2, a2) :: d1), d2. simpl. now rewrite Hi, <- Hd.
      * exists [], ((k2, a2) :: r). auto.
    + exists [], ((k2, a2) :: r). auto.
Qed.

(** The three outcomes of an assignment to a key. *)
Lemma dict_set_cases {A : Type} (k : string) (a : A) (d : dict A) :
  (k = "__proto__" /\ dict_set k a d = d)
  \/ (k <> "__proto__" /\ In k (map fst d)
      /\ dict_set k a d = dict_replace k a d)
  \/ (k <> "__proto__" /\ ~ In k (map fst d)
      /\ exists d1 d2,
           d = (d1 ++ d2)%list /\ dict_set k a d = (d1 ++ (k, a) :: d2)%list).
Proof.
  unfold dict_set. destruct (k =? "__proto__") eqn:Ep.
  - left. apply String.eqb_eq in Ep. auto.
  - apply String.eqb_neq in Ep. right.
    destruct (dict_has k d) eqn:Eh.
    + left. auto using dict_has_true.
    + right. split; [exact Ep|]. split.
      * intros Hin. unfold dict_has in Eh.
        assert (existsb (String.eqb k) (map fst d) = true); [|congruence].
        apply existsb_exists. exists k. now rewrite String.eqb_refl.
      * destruct (array_index k) as [n|].
        -- apply dict_insert_index_split.
        -- exists d, []. now rewrite app_nil_r.
Qed.

Lemma dict_set_In {A : Type} (k k' : string) (a a' : A) (d : dict A) :
  In (k', a') (dict_set k a d) -> (k', a') = (k, a) \/ In (k', a') d.
Proof.
  destruct (dict_set_cases k a d)
    as [[_ ->]|[(_ & _ & ->)|(_ & _ & d1 & d2 & -> & ->)]].
  - auto.
  - apply dict_replace_In.
  - intros H. apply in_app_or in H as [H|[H|H]].
    + right. apply in_or_app. auto.
    + left. now symmetry.
    + right. apply in_or_app. auto.
Qed.

Lemma dict_set_keys {A : Type} (k k' : string) (a : A) (d : dict A) :
  In k' (map fst (dict_set k a d))
  <-> In k' (map fst d) \/ (k' = k /\ k <> "__proto__").
Proof.
  destruct (dict_set_cases k a d)
    as [[Hp ->]|[(Hp & Hin & ->)|(Hp & _ & d1 & d2 & -> & ->)]].
  - split; [auto|]. intros [H|[_ H]]; [exact H|contradiction].
  - rewrite dict_replace_keys. split; [auto|].
    intros [H|[-> _]]; assumption.
  - rewrite !map_app. simpl. rewrite !in_app_iff. simpl. split.
    + intros [H|[H|H]]; auto.
    + intros [[H|H]|[-> _]]; auto.
Qed.

Lemma dict_set_NoDup {A : Type} (k : string) (a : A) (d : dict A) :
  NoDup (map fst d) -> NoDup (map fst (dict_set k a d)).
Proof.
  destruct (dict_set_cases k a d)
    as [[_ ->]|[(_ & _ & ->)|(_ & Hfresh & d1 & d2 & -> & ->)]].
  - auto.
  - now rewrite dict_replace_keys.
  - intros Hnd. rewrite map_app in *. simpl.
    apply (NoDup_Add (Add_app k (map fst d1) (map fst d2))). auto.
Qed.

Lemma dict_set_length {A : Type} (k : string) (a : A) (d : dict A) :
  List.length (dict_set k a d) <= S (List.length d).
Proof.
  destruct (dict_set_cases k a d)
    as [[_ ->]|[(_ & _ & ->)|(_ & _ & d1 & d2 & -> & ->)]].
  - lia.
  - rewrite <- (length_map fst), dict_replace_keys, length_map. lia.
  - rewrite !length_app. simpl. lia.
Qed.

Lemma fold_dict_set_entries {A B : Type} (key : A -> string) (val : A -> B)
  (l : list A) (acc : dict B) :
  let d := fold_left (fun d a => dict_set (key a) (val a) d) l acc in
  (NoDup (map fst acc) -> NoDup (map fst d))
  /\ (forall k, In k (map fst d)
        <-> In k (map fst acc) \/ (In k (map key l) /\ k <> "__proto__"))
  /\ (forall k b, In (k, b) d ->
        In (k, b) acc \/ exists a, In a l /\ k = key a /\ b = val a)
  /\ List.length d <= List.length acc + List.length l.
Proof.
  revert acc. induction l as [|a l IH]; intros acc; simpl.
  - split; [auto|]. split; [|split; [auto|lia]].
    intros k. split; [auto|]. intros [H|[[] _]]. exact H.
  - destruct (IH (dict_set (key a) (val a) acc)) as (H1 & H2 & H3 & H4).
    split; [|split; [|split]].
    + intros Hnd. now apply H1, dict_set_NoDup.
    + intros k. rewrite H2, dict_set_keys. split.
      * intros [[H|[-> H]]|[H H']]; auto.
      * intros [H|[[H|H] H']]; auto. subst k. auto.
    + intros k b Hin. apply H3 in Hin as [Hin|(x & Hx & Hk & Hb)].
      * apply dict_set_In in Hin as [Heq|Hin]; [right|now left].
        inversion Heq; subst. exists a. auto.
      * right. exists x. auto.
    + pose proof (dict_set_length (key a) (val a) acc). lia.
Qed.

(** X19: the node dictionary sent to the service has one entry per node
    id other than [__proto__] and none under [__proto__], each under the id
    of the node it was built from, never more entries than nodes; and in
    every entry [data.config] is an object whose [uploadedFile] is
    [undefined], so that no file handle is transmitted. *)
Theorem nodesToDict_entries (ns : list node) :
  let d := nodesToDict ns in
  NoDup (map fst d)
  /\ (forall k, In k (map fst d)
        <-> In k (map n_id ns) /\ k <> "__proto__")
  /\ (forall k w, In (k, w) d ->
        (exists n, In n ns /\ k = n_id n /\ w = wire_of_node n)
        /\ wn_id w = k
        /\ exists dat cfg,
             wn_data w = VObj dat /\ get_prop "config" dat = VObj cfg
             /\ get_prop "uploadedFile" cfg = VUndef)
  /\ List.length d <= List.length ns.
Proof.
  unfold nodesToDict.
  destruct (fold_dict_set_entries n_id wire_of_node ns [])
    as (H1 & H2 & H3 & H4).
  split; [apply H1; constructor|]. split; [|split; [|exact H4]].
  - intros k. rewrite H2. simpl. tauto.
  - intros k w Hin. apply H3 in Hin as [[]|(n & Hn & -> & ->)].
    split; [eauto|]. split; [reflexivity|].
    unfold wire_of_node. cbn [wn_data].
    destruct (truthy (get_prop "config" (n_data n))).
    + do 2 eexists. split; [reflexivity|]. split.
      * apply get_set_same.
      * apply get_set_same.
    + do 2 eexists. split; [reflexivity|]. split.
      * apply get_set_same.
      * reflexivity.
Qed.

(** ** The run button, continued *)

Lemma saveAndExecuteWorkflow_returns (net : network) (w : world)
  (userQuery : value) :
  exists result w',
    saveAndExecuteWorkflow net userQuery w = (Returned result, w').
Proof.
  unfold saveAndExecuteWorkflow, get, bind at 1, try_catch.
  match goal with
  | |- context [match ?m with (c, w') => _ end] => destruct m as [[a|e] w1]
  end; unfold ret; eauto.
Qed.

(** X20: the run button either refuses the graph or saves it: for every
    store, either the page shows a failure carrying one of the five readiness
    texts while the store and the requests are as before, or the first node
    of type [userQueryNode] holds a query that is neither empty nor the
    placeholder, a node of type [outputNode] exists, the first node of type
    [llmNode] holds a non-empty key, and the page shows what
    [saveAndExecuteWorkflow] returned for that query.  Further nodes of the
    same type are not looked at. *)
Theorem handleRunWorkflow_refuses_or_runs (net : network) (w : world) :
  let ns := nodes (store w) in
  (exists reason,
     In reason readiness_reasons
     /\ handleRunWorkflow net w
        = ({| isExecuting := false; executionResult := run_failure reason;
              showResult := true |}, w))
  \/ (exists uq out llm result w',
        find_type "userQueryNode" ns = Some uq
        /\ find_type "outputNode" ns = Some out
        /\ find_type "llmNode" ns = Some llm
        /\ truthy (config_of uq "query") = true
        /\ is_str (config_of uq "query") placeholder_query = false
        /\ truthy (config_of llm "apiKey") = true
        /\ saveAndExecuteWorkflow net (config_of uq "query") w
           = (Returned result, w')
        /\ handleRunWorkflow net w
           = ({| isExecuting := false; executionResult := run_result result;
                 showResult := true |}, w')).
Proof.
  cbv zeta. unfold handleRunWorkflow, bind, validate, readiness_reasons.
  destruct (find_type "userQueryNode" (nodes (store w))) as [uq|] eqn:Huq;
    [|left; eexists; split; [|reflexivity]; simpl; tauto].
  unfold or_else.
  destruct (truthy (config_of uq "query")) eqn:Hq;
    [|left; eexists; split; [|reflexivity]; simpl; tauto].
  rewrite Hq. cbn [negb orb].
  destruct (is_str (config_of uq "query") placeholder_query) eqn:Hp;
    [left; eexists; split; [|reflexivity]; simpl; tauto|].
  destruct (find_type "outputNode" (nodes (store w))) as [out|] eqn:Hout;
    [|left; eexists; split; [|reflexivity]; simpl; tauto].
  destruct (find_type "llmNode" (nodes (store w))) as [llm|] eqn:Hllm;
    [|left; eexists; split; [|reflexivity]; simpl; tauto].
  destruct (truthy (config_of llm "apiKey")) eqn:Hkey;
    [|left; eexists; split; [|reflexivity]; simpl; tauto].
  right. cbn [negb]. unfold ret.
  destruct (saveAndExecuteWorkflow_returns net w (config_of uq "query"))
    as (result & w' & Hrun).
  exists uq, out, llm, result, w'. rewrite Hrun. repeat split; auto.
Qed.

(** X8: a query node fresh from the palette blocks the run: after a
    component of type [userQueryNode] is dropped on a canvas that holds no
    node of that type, the run button shows the failure asking for a query,
    and neither the store nor the list of requests changes. *)
Theorem dropped_query_node_blocks_run (net : network) (now : Z)
  (position : value) (st : state) (log : list request) :
  (forall n, In n (nodes st) -> is_str (n_type n) "userQueryNode" = false) ->
  let w := {| store := onDrop now "userQueryNode" position st;
              sent := log |} in
  handleRunWorkflow net w
  = ({| isExecuting := false; executionResult := run_failure query_reason;
        showResult := true |}, w).
Proof.
  intros Hnone. cbv zeta.
  unfold handleRunWorkflow, bind, validate, find_type, onDrop.
  cbn [negb String.eqb Ascii.eqb Bool.eqb store nodes addNode with_nodes].
  rewrite find_skip by exact Hnone.
  reflexivity.
Qed.

(** Witness for X8: a query node is dropped on a canvas holding a language
    model. *)
Lemma dropped_query_node_blocks_run_witness :
  sent (snd (handleRunWorkflow sample_network
               {| store := onDrop 1700000000000 "userQueryNode" origin
                             (sample_state [llm_node "l1" "sk-1"] []);
                  sent := [] |}))
  = [].
Proof.
  rewrite (dropped_query_node_blocks_run sample_network 1700000000000 origin
             (sample_state [llm_node "l1" "sk-1"] []) []).
  - reflexivity.
  - intros n [<-|[]]. reflexivity.
Defined.

(** ** Editing a setting *)

Lemma assign_cons_other (k : string) (v : value) (o src : obj) :
  has_prop k src = false ->
  assign ((k, v) :: o) src = (k, v) :: assign o src.
Proof.
  unfold assign. revert o. induction src as [|[k' v'] r IH]; intros o H; auto.
  simpl in H. apply orb_false_iff in H as [Hk Hr].
  cbn [fold_left fst snd set_prop].
  rewrite String.eqb_sym, Hk. now apply IH.
Qed.

(** Writing onto an object an object with the same keys in the same order
    gives the second object. *)
Lemma assign_same_keys (o src : obj) :
  NoDup (map fst src) -> map fst src = map fst o -> assign o src = src.
Proof.
  revert o. induction src as [|[k v] r IH]; intros o Hnd Hkeys.
  - destruct o; [reflexivity | discriminate].
  - destruct o as [|[k' v'] o]; [discriminate|].
    simpl in Hkeys. injection Hkeys as <- Hkeys.
    inversion Hnd as [|? ? Hnot Hnd']; subst.
    change (assign ((k, v') :: o) ((k, v) :: r))
      with (assign (set_prop k v ((k, v') :: o)) r).
    cbn [set_prop]. rewrite String.eqb_refl.
    rewrite assign_cons_other.
    + now rewrite IH.
    + destruct (has_prop k r) eqn:E; auto.
      apply has_prop_In in E. contradiction.
Qed.

Lemma set_prop_absent (k : string) (v : value) (o : obj) :
  has_prop k o = false -> set_prop k v o = (o ++ [(k, v)])%list.
Proof.
  induction o as [|[k' v'] r IH]; simpl; auto.
  intros H. apply orb_false_iff in H as [Hk Hr]. now rewrite Hk, IH.
Qed.

Lemma assign_app (o a b : obj) :
  assign o (a ++ b)%list = assign (assign o a) b.
Proof. unfold assign. apply fold_left_app. Qed.

(** Merging a config with one of its keys changed is changing that key. *)
Lemma assign_own_update (k : string) (v : value) (cfg : obj) :
  NoDup (map fst cfg) ->
  assign cfg (set_prop k v cfg) = assign cfg [(k, v)].
Proof.
  intros Hnd. change (assign cfg [(k, v)]) with (set_prop k v cfg).
  destruct (has_prop k cfg) eqn:Hk.
  - apply assign_same_keys.
    + now rewrite set_prop_keys.
    + now apply set_prop_keys.
  - rewrite (set_prop_absent k v cfg Hk), assign_app.
    rewrite (assign_same_keys cfg cfg Hnd eq_refl).
    change (assign cfg [(k, v)]) with (set_prop k v cfg).
    now apply set_prop_absent.
Qed.

(** X24: the two ways the node components write a setting agree: when
    [data.config] of the render is the config object of the node, merging a
    copy of the whole config with one key changed, as the knowledge-base node
    does, leaves the store as merging the single key, as the other nodes do. *)
Theorem handleConfigChange_spread_agrees (id key : string) (v : value)
  (cfg : obj) (st : state) :
  NoDup (map fst cfg) ->
  (forall n, In n (nodes st) -> n_id n = id ->
             get_prop "config" (n_data n) = VObj cfg) ->
  handleConfigChange_spread id (VObj cfg) key v st
  = handleConfigChange id key v st.
Proof.
  intros Hnd Hcfg.
  unfold handleConfigChange_spread, handleConfigChange, updateNodeConfig.
  f_equal. apply map_ext_in. intros n Hn.
  destruct (n_id n =? id) eqn:E; [|reflexivity].
  apply String.eqb_eq in E. unfold merge_config.
  rewrite (Hcfg n Hn E). cbn [own_props].
  now rewrite assign_own_update.
Qed.

(** Witness for X24: the key of a language model is changed. *)
Lemma handleConfigChange_spread_agrees_witness :
  handleConfigChange_spread "l1"
    (VObj [("model", VStr "GPT-4o-Mini"); ("apiKey", VStr "sk-1")])
    "apiKey" (VStr "sk-2") (sample_state [llm_node "l1" "sk-1"] [])
  = handleConfigChange "l1" "apiKey" (VStr "sk-2")
      (sample_state [llm_node "l1" "sk-1"] []).
Proof.
  apply handleConfigChange_spread_agrees.
  - repeat constructor; simpl; intuition discriminate.
  - intros n [<-|[]] _. reflexivity.
Defined.

(** ** Identifiers of document uploads *)

Lemma hex_not_t (c : ascii) : is_hex c = true -> c <> "t"%char.
Proof. intros H ->. discriminate H. Qed.

(** X21: an identifier accepted by [isValidUUID] has 36 characters with
    dashes at positions 8, 13, 18 and 23, and is an identifier that
    [loadWorkflow] fetches from the service: it is neither empty, nor [new],
    nor one that starts with [temp_]. *)
Theorem isValidUUID_shape (str : string) :
  isValidUUID str = true ->
  String.length str = 36
  /\ String.get 8 str = Some "-"%char /\ String.get 13 str = Some "-"%char
  /\ String.get 18 str = Some "-"%char /\ String.get 23 str = Some "-"%char
  /\ not_fetched (VStr str) = false.
Proof.
  unfold isValidUUID, uuid_classes. cbn [repeat app]. intros H.
  do 36 (destruct str as [|? str]; [discriminate H|];
         cbn [matches_classes] in H;
         apply andb_true_iff in H as [? H]).
  destruct str; [|discriminate H].
  repeat match goal with
         | Hd : is_dash ?c = true |- _ =>
             apply Ascii.eqb_eq in Hd; subst c
         end.
  split; [reflexivity|]. do 4 (split; [reflexivity|]).
  unfold not_fetched. cbn [truthy is_str negb orb String.eqb prefix].
  match goal with
  | Hh : is_hex ?c = true |- context [ascii_dec "t" ?c] =>
      destruct (ascii_dec "t" c) as [E|E];
      [symmetry in E; now apply hex_not_t in E|]
  end.
  repeat match goal with
         | |- context [Ascii.eqb ?a ?b] => destruct (Ascii.eqb a b)
         end; reflexivity.
Qed.

(** Witness for X21. *)
Lemma isValidUUID_shape_witness :
  not_fetched (VStr "123e4567-e89b-12d3-a456-426614174000") = false.
Proof.
  apply (isValidUUID_shape "123e4567-e89b-12d3-a456-426614174000" eq_refl).
Defined.

Lemma digit_cases (r : Z) :
  (0 <= r < 16)%Z ->
  (r = 0 \/ r = 1 \/ r = 2 \/ r = 3 \/ r = 4 \/ r = 5 \/ r = 6 \/ r = 7
   \/ r = 8 \/ r = 9 \/ r = 10 \/ r = 11 \/ r = 12 \/ r = 13 \/ r = 14
   \/ r = 15)%Z.
Proof. lia. Qed.

Lemma to_hex_digit (r : Z) :
  (0 <= r < 16)%Z ->
  exists c, to_hex r = String c EmptyString /\ is_hex c = true.
Proof.
  intros H. apply digit_cases in H.
  repeat (destruct H as [->|H]; [eexists; split; reflexivity|]).
  subst. eexists. split; reflexivity.
Qed.

Lemma to_hex_variant (r : Z) :
  (0 <= r < 16)%Z ->
  exists c, to_hex (Z.lor (Z.land r 3) 8) = String c EmptyString
            /\ is_variant c = true /\ is_hex c = true.
Proof.
  intros H. apply digit_cases in H.
  repeat (destruct H as [->|H]; [eexists; repeat split; reflexivity|]).
  subst. eexists. repeat split; reflexivity.
Qed.

(** Every identifier [generateUUID] produces is accepted by
    [isValidUUID]. *)
Lemma generateUUID_accepted (random : nat -> Z) :
  digits random -> isValidUUID (generateUUID random) = true.
Proof.
  intros Hd. unfold generateUUID.
  cbn [replace_xy Ascii.eqb Bool.eqb].
  repeat match goal with
         | |- context [to_hex (Z.lor (Z.land (random ?k) 3) 8)] =>
             let c := fresh "c" in
             let E := fresh "E" in
             let Hv := fresh "Hv" in
             let Hh := fresh "Hh" in
             destruct (to_hex_variant (random k) (Hd k))
               as (c & E & Hv & Hh);
             rewrite E; clear E
         end.
  repeat match goal with
         | |- context [to_hex (random ?k)] =>
             let c := fresh "c" in
             let E := fresh "E" in
             let Hh := fresh "Hh" in
             destruct (to_hex_digit (random k) (Hd k)) as (c & E & Hh);
             rewrite E; clear E
         end.
  cbn [append]. unfold isValidUUID, uuid_classes.
  cbn [repeat app matches_classes].
  repeat match goal with
         | Hh : _ = true |- _ => rewrite Hh; clear Hh
         end.
  reflexivity.
Qed.

(** X22: whatever the random draws, [generateUUID] produces an identifier
    that [isValidUUID] accepts, with the version digit 4. *)
Theorem generateUUID_valid (random : nat -> Z) :
  digits random ->
  isValidUUID (generateUUID random) = true
  /\ String.get 14 (generateUUID random) = Some "4"%char.
Proof.
  intros Hd. split; [now apply generateUUID_accepted|].
  unfold generateUUID. cbn [replace_xy Ascii.eqb Bool.eqb].
  repeat match goal with
         | |- context [to_hex (random ?k)] =>
             let c := fresh "c" in
             let E := fresh "E" in
             let Hh := fresh "Hh" in
             destruct (to_hex_digit (random k) (Hd k)) as (c & E & Hh);
             rewrite E; clear E
         end.
  reflexivity.
Qed.

(** Witness for X22: every draw is 10. *)
Lemma generateUUID_valid_witness :
  generateUUID (fun _ => 10%Z) = "aaaaaaaa-aaaa-4aaa-aaaa-aaaaaaaaaaaa"
  /\ isValidUUID (generateUUID (fun _ => 10%Z)) = true.
Proof.
  split; [reflexivity|].
  apply (generateUUID_valid (fun _ => 10%Z)). intros k. lia.
Defined.


